(** * BlobTriggerFunction: dispatch of a storage blob to a sentiment or an OCR
      analysis, and the shape of the JSON envelope written back.

    The development embeds [src/BlobTriggerFunction/__init__.py]: the
    handler [main] and the two strategies [process_text] and
    [process_image].  The Azure SDK, [os.getenv], [json.dumps] and the
    logging module are libraries the handler calls; they appear here as a
    record of operations ([World]) that every definition takes as an
    argument, and as a log of the calls made. *)

From Stdlib Require Import ZArith NArith List String Ascii Bool Lia.
From Stdlib.Strings Require Import Byte.
From Stdlib Require Import DecimalString.
From Stdlib Require Import Floats.PrimFloat.
Import ListNotations.

Set Warnings "-register-all".
Set Warnings "-inexact-float".

Local Open Scope string_scope.
Local Open Scope list_scope.

(** ** Python strings

    A Python [str] is represented by its UTF-8 encoding, one [ascii] per
    byte.  The suffixes the handler tests are ASCII, and an ASCII byte never
    occurs inside a multi-byte sequence, so a suffix test on the encoding
    and on the code points agree. *)

Module Str.

Fixpoint drop (n : nat) (s : string) : string :=
  match n, s with
  | O, _ => s
  | S _, EmptyString => EmptyString
  | S k, String _ t => drop k t
  end.

Fixpoint take (n : nat) (s : string) : string :=
  match n, s with
  | O, _ => EmptyString
  | S _, EmptyString => EmptyString
  | S k, String a t => String a (take k t)
  end.

(** [s.endswith(suffix)]: the last [len(suffix)] characters of [s] are
    [suffix]. *)
Definition endswith (s suffix : string) : bool :=
  (String.length suffix <=? String.length s)%nat
  && String.eqb (drop (String.length s - String.length suffix) s) suffix.

(** A byte that continues a multi-byte sequence. *)
Definition continuation (a : ascii) : bool :=
  ((128 <=? N_of_ascii a) && (N_of_ascii a <=? 191))%N.

(** [len(s)]: the number of characters.  On the encoding these are the
    bytes that open a sequence, that is, the bytes that are not
    continuation bytes. *)
Fixpoint len (s : string) : nat :=
  match s with
  | EmptyString => O
  | String a t => ((if continuation a then 0 else 1) + len t)%nat
  end.

(** [str(n)] for an [int], as an f-string renders it. *)
Definition of_int (z : Z) : string := NilZero.string_of_int (Z.to_int z).

End Str.

(** ** [bytes.decode("utf-8")]

    The strict decoder: shortest forms only, no surrogates, nothing above
    U+10FFFF.  [utf8_wf] walks the bytes by lead byte. *)

Module Utf8.

Definition cont (b : N) : bool := ((128 <=? b) && (b <=? 191))%N.

Definition between (lo hi b : N) : bool := ((lo <=? b) && (b <=? hi))%N.

(** The range allowed for the second byte after lead byte [b0]. *)
Definition second (b0 b1 : N) : bool :=
  if (b0 =? 224)%N then between 160 191 b1
  else if (b0 =? 237)%N then between 128 159 b1
  else if (b0 =? 240)%N then between 144 191 b1
  else if (b0 =? 244)%N then between 128 143 b1
  else cont b1.

Fixpoint wf (bs : list N) : bool :=
  match bs with
  | [] => true
  | b0 :: r0 =>
      if (b0 <? 128)%N then wf r0
      else if between 194 223 b0 then
        match r0 with
        | b1 :: r1 => cont b1 && wf r1
        | _ => false
        end
      else if between 224 239 b0 then
        match r0 with
        | b1 :: b2 :: r2 => second b0 b1 && cont b2 && wf r2
        | _ => false
        end
      else if between 240 244 b0 then
        match r0 with
        | b1 :: b2 :: b3 :: r3 => second b0 b1 && cont b2 && cont b3 && wf r3
        | _ => false
        end
      else false
  end.

Definition utf8_wf (content : list byte) : bool := wf (map Byte.to_N content).

End Utf8.

(** ** Python values and exceptions *)

(** The values the strategies build and hand to [json.dumps]. *)
Inductive value : Type :=
| VInt (z : Z)
| VFloat (f : float)
| VStr (s : string)
| VList (l : list value)
| VDict (items : list (string * value)).

Inductive exn : Type :=
| UnicodeDecodeError
| AttributeError (attr : string)
| KeyError (key : string)
| TypeError (msg : string)
| Raised (cls msg : string).    (* an exception raised inside a library call *)

Definition decode_utf8 (content : list byte) : exn + string :=
  if Utf8.utf8_wf content then inr (string_of_list_byte content)
  else inl UnicodeDecodeError.

(** Dictionaries keep insertion order; keys are compared exactly. *)
Module Dict.

Fixpoint get (k : string) (items : list (string * value)) : option value :=
  match items with
  | [] => None
  | (k', v) :: rest => if String.eqb k k' then Some v else get k rest
  end.

Fixpoint set (k : string) (v : value) (items : list (string * value))
  : list (string * value) :=
  match items with
  | [] => [(k, v)]
  | (k', v') :: rest =>
      if String.eqb k k' then (k', v) :: rest else (k', v') :: set k v rest
  end.

Definition keys (d : value) : list string :=
  match d with
  | VDict items => map fst items
  | _ => []
  end.

Definition has_key (k : string) (d : value) : bool :=
  match d with
  | VDict items => match get k items with Some _ => true | None => false end
  | _ => false
  end.

End Dict.

(** [d[k]], the list it must hold for [d[k].append]. *)
Definition getitem_list (d : value) (k : string) : exn + list value :=
  match d with
  | VDict items =>
      match Dict.get k items with
      | Some (VList l) => inr l
      | Some _ => inl (AttributeError "append")
      | None => inl (KeyError k)
      end
  | _ => inl (TypeError "object is not subscriptable")
  end.

(** The dictionary after [d[k].append(x)], [l] being the list at [k]. *)
Definition appended (d : value) (k : string) (l : list value) (x : value) : value :=
  match d with
  | VDict items => VDict (Dict.set k (VList (l ++ [x])) items)
  | _ => d
  end.

(** [json.dumps(v)].  The text is not computed: the string the serialiser
    returns is represented by the value it was given.  Every [value] is
    serialisable, so the call does not raise. *)
Module json.

Inductive text : Type := dumps (v : value).

End json.

(** ** The trigger input and the SDK's objects *)

(** [azure.functions.InputStream], as delivered by the trigger. *)
Module func.

Record InputStream : Type := {
  name : string;
  length : Z;
  content : list byte
}.

Definition read (b : InputStream) : list byte := content b.

End func.

(** What the two analysis clients return.  The classes belong to the Azure
    SDK, not to this repository; the fields are those the source reads,
    with the types the specification gives them (sections 3 and 6), and
    the ones it leaves behind. *)
Module Azure.

Record SentimentConfidenceScores : Type := {
  positive : float;
  neutral : float;
  negative : float
}.

(** An item of the sentiment response, as a Python object.  [is_error]
    is the backend's per-document failure flag.  [sentiment] and
    [confidence_scores] are [None] when the object has no such
    attribute: reading it raises [AttributeError].  The SDK's result
    class has both and is not flagged; its per-document error class is
    flagged and has neither. *)
Record SentimentItem : Type := {
  id : string;
  is_error : bool;
  sentiment : option string;
  confidence_scores : option SentimentConfidenceScores
}.

(** The items the SDK builds: a result, not flagged, with both
    attributes; or a per-document error, flagged, with neither. *)
Definition sdk_item (doc : SentimentItem) : Prop :=
  (is_error doc = false /\ sentiment doc <> None /\ confidence_scores doc <> None)
  \/ (is_error doc = true /\ sentiment doc = None /\ confidence_scores doc = None).

(** A detected line: its text, and the geometry and confidence that
    come with it. *)
Record DocumentLine : Type := {
  content : string;
  polygon : list (float * float);
  confidence : float
}.

Record DocumentPage : Type := {
  page_number : Z;
  lines : list DocumentLine
}.

Record AnalyzeResult : Type := {
  pages : list DocumentPage
}.

Record Credential : Type := { key : option string }.

Record Client : Type := {
  endpoint : option string;
  credential : Credential
}.

(** The long-running operation: [result()] blocks until the terminal
    state and returns the pages or raises. *)
Record LROPoller : Type := { result : exn + AnalyzeResult }.

End Azure.

(** The libraries the handler calls.  A constructor or a remote call
    returns its object or raises. *)
Record World : Type := {
  getenv : string -> option string;
  AzureKeyCredential : option string -> exn + Azure.Credential;
  TextAnalyticsClient : option string -> Azure.Credential -> exn + Azure.Client;
  analyze_sentiment : Azure.Client -> list string -> exn + list Azure.SentimentItem;
  DocumentAnalysisClient : option string -> Azure.Credential -> exn + Azure.Client;
  begin_analyze_document : Azure.Client -> string -> list byte -> exn + Azure.LROPoller
}.

(** ** Effects: the log, the remote calls, the output binding *)

Inductive event : Type :=
| LogInfo (msg : string)
| LogWarning (msg : string)
| AnalyzeSentiment (documents : list string)
| BeginAnalyzeDocument (model : string) (document : list byte)
| PollerResult.

Record state : Type := {
  trace : list event;            (* oldest first *)
  outputBlob : option json.text  (* what [outputBlob.set] stored, if called *)
}.

Definition initial : state := {| trace := []; outputBlob := None |}.

Definition M (A : Type) : Type := state -> (exn + A) * state.

Definition ret {A} (a : A) : M A := fun s => (inr a, s).

Definition raise {A} (e : exn) : M A := fun s => (inl e, s).

Definition bind {A B} (m : M A) (k : A -> M B) : M B :=
  fun s =>
    match m s with
    | (inr a, s') => k a s'
    | (inl e, s') => (inl e, s')
    end.

Notation "x <- m ;; k" := (bind m (fun x => k))
  (at level 61, m at next level, right associativity).
Notation "m ;; k" := (bind m (fun _ => k))
  (at level 61, right associativity).

Definition lift {A} (r : exn + A) : M A :=
  match r with
  | inr a => ret a
  | inl e => raise e
  end.

Definition emit (ev : event) : M unit :=
  fun s => (inr tt, {| trace := trace s ++ [ev]; outputBlob := outputBlob s |}).

(** A call that leaves the process: recorded, then its outcome. *)
Definition remote {A} (ev : event) (r : exn + A) : M A := emit ev ;; lift r.

Definition logging_info (msg : string) : M unit := emit (LogInfo msg).

Definition logging_warning (msg : string) : M unit := emit (LogWarning msg).

Definition outputBlob_set (text : json.text) : M unit :=
  fun s => (inr tt, {| trace := trace s; outputBlob := Some text |}).

(** [for x in xs: acc = body x acc], stopping at the first exception. *)
Fixpoint for_each {A B} (xs : list A) (body : A -> B -> M B) (acc : B) : M B :=
  match xs with
  | [] => ret acc
  | x :: rest => acc' <- body x acc ;; for_each rest body acc'
  end.

(** Reading an attribute that may be absent from the object. *)
Definition getattr {A} (attr : string) (field : option A) : M A :=
  match field with
  | Some a => ret a
  | None => raise (AttributeError attr)
  end.

(** ** The handler *)

Section Handler.

Variable w : World.

(** One turn of the loop of [process_text]:
    [result["documents"].append({...})]. *)
Definition append_document (doc : Azure.SentimentItem) (result : value) : M value :=
  documents <- lift (getitem_list result "documents") ;;
  let doc_id := Azure.id doc in
  doc_sentiment <- getattr "sentiment" (Azure.sentiment doc) ;;
  scores_positive <- getattr "confidence_scores" (Azure.confidence_scores doc) ;;
  scores_neutral <- getattr "confidence_scores" (Azure.confidence_scores doc) ;;
  scores_negative <- getattr "confidence_scores" (Azure.confidence_scores doc) ;;
  ret (appended result "documents" documents
         (VDict [("id", VStr doc_id);
                 ("sentiment", VStr doc_sentiment);
                 ("confidence_scores",
                   VDict [("positive", VFloat (Azure.positive scores_positive));
                          ("neutral", VFloat (Azure.neutral scores_neutral));
                          ("negative", VFloat (Azure.negative scores_negative))])])).

Definition process_text (blob_content : string) : M value :=
  let endpoint := getenv w "AZURE_AI_ENDPOINT" in
  let key := getenv w "AZURE_AI_KEY" in
  credential <- lift (AzureKeyCredential w key) ;;
  client <- lift (TextAnalyticsClient w endpoint credential) ;;
  response <- remote (AnalyzeSentiment [blob_content])
                     (analyze_sentiment w client [blob_content]) ;;
  let result := VDict [("documents", VList [])] in
  for_each response append_document result.

(** The inner loop of [process_image]:
    [page_data["lines"].append(line.content)]. *)
Definition append_line (line : Azure.DocumentLine) (page_data : value) : M value :=
  lines <- lift (getitem_list page_data "lines") ;;
  ret (appended page_data "lines" lines (VStr (Azure.content line))).

Definition append_page (page : Azure.DocumentPage) (analysis_result : value) : M value :=
  let page_data :=
    VDict [("page_number", VInt (Azure.page_number page)); ("lines", VList [])] in
  page_data <- for_each (Azure.lines page) append_line page_data ;;
  pages <- lift (getitem_list analysis_result "pages") ;;
  ret (appended analysis_result "pages" pages page_data).

Definition process_image (blob_content : list byte) : M value :=
  let endpoint := getenv w "AZURE_AI_ENDPOINT" in
  let key := getenv w "AZURE_AI_KEY" in
  credential <- lift (AzureKeyCredential w key) ;;
  client <- lift (DocumentAnalysisClient w endpoint credential) ;;
  poller <- remote (BeginAnalyzeDocument "prebuilt-read" blob_content)
                   (begin_analyze_document w client "prebuilt-read" blob_content) ;;
  result <- remote PollerResult (Azure.result poller) ;;
  let analysis_result := VDict [("pages", VList [])] in
  for_each (Azure.pages result) append_page analysis_result.

Definition info_message (myblob : func.InputStream) : string :=
  "Processing blob: " ++ func.name myblob ++ ", Size: "
    ++ Str.of_int (func.length myblob) ++ " bytes".

Definition warning_message (myblob : func.InputStream) : string :=
  "Unsupported file type for blob: " ++ func.name myblob.

(** The [if]/[elif]/[else] of [main]: the strategy's result, or [None]
    where [main] returns early. *)
Definition select (myblob : func.InputStream) : M (option value) :=
  if Str.endswith (func.name myblob) ".txt" then
    text <- lift (decode_utf8 (func.read myblob)) ;;
    result <- process_text text ;;
    ret (Some result)
  else if Str.endswith (func.name myblob) ".jpg"
          || Str.endswith (func.name myblob) ".png" then
    result <- process_image (func.read myblob) ;;
    ret (Some result)
  else
    logging_warning (warning_message myblob) ;;
    ret None.

Definition main (myblob : func.InputStream) : M unit :=
  logging_info (info_message myblob) ;;
  selected <- select myblob ;;
  match selected with
  | Some result => outputBlob_set (json.dumps result)
  | None => ret tt
  end.

End Handler.

(** ** Vocabulary of the specification *)

(** "[s] ends with [suffix]". *)
Definition has_suffix (suffix s : string) : Prop := exists p, s = (p ++ suffix)%string.

Definition supported (name : string) : Prop :=
  has_suffix ".txt" name \/ has_suffix ".jpg" name \/ has_suffix ".png" name.

Definition is_warning (ev : event) : bool :=
  match ev with
  | LogWarning _ => true
  | _ => false
  end.

Definition is_remote (ev : event) : bool :=
  match ev with
  | AnalyzeSentiment _ | BeginAnalyzeDocument _ _ | PollerResult => true
  | _ => false
  end.

Definition warnings (t : list event) : nat := List.length (filter is_warning t).

Definition remote_calls (t : list event) : list event := filter is_remote t.

(** The state after the events [evs], the output binding untouched. *)
Definition logged (s : state) (evs : list event) : state :=
  {| trace := trace s ++ evs; outputBlob := outputBlob s |}.

(** The state after the events [evs] and [outputBlob.set(json.dumps(v))]. *)
Definition written (s : state) (evs : list event) (v : value) : state :=
  {| trace := trace s ++ evs; outputBlob := Some (json.dumps v) |}.

(** The output schema (section 3 of the specification), written from the
    specification's words; the theorems compare what the loops of the
    source build with these. *)

Definition document_entry (id sentiment : string)
           (scores : Azure.SentimentConfidenceScores) : value :=
  VDict [("id", VStr id);
         ("sentiment", VStr sentiment);
         ("confidence_scores",
           VDict [("positive", VFloat (Azure.positive scores));
                  ("neutral", VFloat (Azure.neutral scores));
                  ("negative", VFloat (Azure.negative scores))])].

Definition TextResult (documents : list value) : value :=
  VDict [("documents", VList documents)].

Definition page_entry (number : Z) (lines : list string) : value :=
  VDict [("page_number", VInt number); ("lines", VList (map VStr lines))].

Definition ImageResult (pages : list value) : value :=
  VDict [("pages", VList pages)].

(** What the output keeps of a backend page: its number and the text of
    its lines. *)
Definition page_text (page : Azure.DocumentPage) : Z * list string :=
  (Azure.page_number page, map Azure.content (Azure.lines page)).

Definition render_page (page : Azure.DocumentPage) : value :=
  page_entry (fst (page_text page)) (snd (page_text page)).

(** The entry of an item whose two attributes can be read. *)
Definition rendered (doc : Azure.SentimentItem) : option value :=
  match Azure.sentiment doc, Azure.confidence_scores doc with
  | Some label, Some scores => Some (document_entry (Azure.id doc) label scores)
  | _, _ => None
  end.

(** The entries of a response, or the exception of the first attribute
    read that fails. *)
Fixpoint render_all (response : list Azure.SentimentItem) : exn + list value :=
  match response with
  | [] => inr []
  | doc :: rest =>
      match Azure.sentiment doc, Azure.confidence_scores doc with
      | None, _ => inl (AttributeError "sentiment")
      | Some _, None => inl (AttributeError "confidence_scores")
      | Some label, Some scores =>
          match render_all rest with
          | inr entries => inr (document_entry (Azure.id doc) label scores :: entries)
          | inl e => inl e
          end
      end
  end.

Definition in_unit (f : float) : bool := (PrimFloat.leb 0 f && PrimFloat.leb f 1)%bool.

Definition scores_in_unit (scores : Azure.SentimentConfidenceScores) : Prop :=
  in_unit (Azure.positive scores) = true
  /\ in_unit (Azure.neutral scores) = true
  /\ in_unit (Azure.negative scores) = true.

(** Reading an envelope back. *)
Definition documents_of (envelope : value) : list value :=
  match envelope with
  | VDict items =>
      match Dict.get "documents" items with
      | Some (VList l) => l
      | _ => []
      end
  | _ => []
  end.

Definition floats_of (d : value) : list float :=
  match d with
  | VDict items =>
      flat_map (fun kv => match snd kv with VFloat f => [f] | _ => [] end) items
  | _ => []
  end.

Definition scores_of (entry : value) : list float :=
  match entry with
  | VDict items =>
      match Dict.get "confidence_scores" items with
      | Some d => floats_of d
      | None => []
      end
  | _ => []
  end.

(** A configuration value that is absent or empty. *)
Definition unusable (setting : option string) : Prop :=
  setting = None \/ setting = Some "".

Definition config_unusable (w : World) : Prop :=
  unusable (getenv w "AZURE_AI_ENDPOINT") \/ unusable (getenv w "AZURE_AI_KEY").

Definition failed {A} (r : (exn + A) * state) : Prop := exists e, fst r = inl e.

(** "With an endpoint or key that is missing or invalid the strategies fail
    before any remote call." *)
Definition fails_fast_unconfigured (w : World) : Prop :=
  config_unusable w ->
  forall (text : string) (image : list byte) (s : state),
    (failed (process_text w text s)
     /\ remote_calls (trace (snd (process_text w text s))) = remote_calls (trace s))
    /\ (failed (process_image w image s)
        /\ remote_calls (trace (snd (process_image w image s))) = remote_calls (trace s)).

(** The SDK's constructors refuse an absent key and an absent endpoint. *)
Definition rejects_unset (w : World) : Prop :=
  (exists e, AzureKeyCredential w None = inl e)
  /\ (forall credential, exists e, TextAnalyticsClient w None credential = inl e)
  /\ (forall credential, exists e, DocumentAnalysisClient w None credential = inl e).

Definition unset_setting (w : World) : Prop :=
  getenv w "AZURE_AI_KEY" = None \/ getenv w "AZURE_AI_ENDPOINT" = None.

(** ** Routes and the shapes of a run *)

(** The branch the [if]/[elif]/[else] of [main] takes, from the same three
    suffix tests in the same order. *)
Inductive route : Type := ToText | ToImage | Skipped.

Definition route_of (name : string) : route :=
  if Str.endswith name ".txt" then ToText
  else if Str.endswith name ".jpg" || Str.endswith name ".png" then ToImage
  else Skipped.

Definition is_info (ev : event) : bool :=
  match ev with
  | LogInfo _ => true
  | _ => false
  end.

Definition infos (t : list event) : nat := List.length (filter is_info t).

(** Every run of [main] on blob [b] from state [s] ends in one of these
    nine ways. *)
Inductive shape (b : func.InputStream) (s : state) : (exn + unit) * state -> Prop :=
| shape_skipped :
    route_of (func.name b) = Skipped ->
    shape b s (inr tt, logged s [LogInfo (info_message b);
                                 LogWarning (warning_message b)])
| shape_undecodable :
    route_of (func.name b) = ToText ->
    decode_utf8 (func.content b) = inl UnicodeDecodeError ->
    shape b s (inl UnicodeDecodeError, logged s [LogInfo (info_message b)])
| shape_text_not_built (text : string) (e : exn) :
    route_of (func.name b) = ToText ->
    decode_utf8 (func.content b) = inr text ->
    shape b s (inl e, logged s [LogInfo (info_message b)])
| shape_text_failed (text : string) (e : exn) :
    route_of (func.name b) = ToText ->
    decode_utf8 (func.content b) = inr text ->
    shape b s (inl e, logged s [LogInfo (info_message b); AnalyzeSentiment [text]])
| shape_text_written (text : string) (documents : list value) :
    route_of (func.name b) = ToText ->
    decode_utf8 (func.content b) = inr text ->
    shape b s (inr tt, written s [LogInfo (info_message b); AnalyzeSentiment [text]]
                               (TextResult documents))
| shape_image_not_built (e : exn) :
    route_of (func.name b) = ToImage ->
    shape b s (inl e, logged s [LogInfo (info_message b)])
| shape_image_not_accepted (e : exn) :
    route_of (func.name b) = ToImage ->
    shape b s (inl e, logged s [LogInfo (info_message b);
                                BeginAnalyzeDocument "prebuilt-read" (func.content b)])
| shape_image_failed (e : exn) :
    route_of (func.name b) = ToImage ->
    shape b s (inl e, logged s [LogInfo (info_message b);
                                BeginAnalyzeDocument "prebuilt-read" (func.content b);
                                PollerResult])
| shape_image_written (pages : list value) :
    route_of (func.name b) = ToImage ->
    shape b s (inr tt, written s [LogInfo (info_message b);
                                  BeginAnalyzeDocument "prebuilt-read" (func.content b);
                                  PollerResult]
                               (ImageResult pages)).

(** ** Concrete worlds, used to run the handler *)

Module Scenario.

Definition configured (var : string) : option string :=
  if String.eqb var "AZURE_AI_ENDPOINT" then Some "https://ai.example.net/"
  else if String.eqb var "AZURE_AI_KEY" then Some "0123456789abcdef"
  else None.

(** The key variable is set, to the empty string. *)
Definition empty_key (var : string) : option string :=
  if String.eqb var "AZURE_AI_ENDPOINT" then Some "https://ai.example.net/"
  else if String.eqb var "AZURE_AI_KEY" then Some ""
  else None.

Definition unset (var : string) : option string := None.

(** The key variable is set, the endpoint variable is not. *)
Definition no_endpoint (var : string) : option string :=
  if String.eqb var "AZURE_AI_KEY" then Some "0123456789abcdef" else None.

(** Constructors that take any string and refuse an absent argument, as
    the SDK's do. *)
Definition checked_credential (key : option string) : exn + Azure.Credential :=
  match key with
  | Some _ => inr {| Azure.key := key |}
  | None => inl (Raised "TypeError" "key must be a string.")
  end.

Definition checked_client (endpoint : option string) (c : Azure.Credential)
  : exn + Azure.Client :=
  match endpoint with
  | Some _ => inr {| Azure.endpoint := endpoint; Azure.credential := c |}
  | None => inl (Raised "ValueError" "Parameter 'endpoint' must be a string.")
  end.

(** A world whose sentiment backend answers [response] and whose OCR
    backend ends in [outcome]. *)
Definition world (env : string -> option string)
           (response : exn + list Azure.SentimentItem)
           (outcome : exn + Azure.AnalyzeResult) : World :=
  {| getenv := env;
     AzureKeyCredential := checked_credential;
     TextAnalyticsClient := checked_client;
     analyze_sentiment := fun _ _ => response;
     DocumentAnalysisClient := checked_client;
     begin_analyze_document := fun _ _ _ => inr {| Azure.result := outcome |} |}.

Definition bytes_of (s : string) : list byte := list_byte_of_string s.

Definition blob (name : string) (content : list byte) : func.InputStream :=
  {| func.name := name;
     func.length := Z.of_nat (List.length content);
     func.content := content |}.

Definition notes : func.InputStream := blob "notes.txt" (bytes_of "I love this product!").

Definition scan : func.InputStream := blob "scan.png" [x89; x50; x4e; x47]%byte.

Definition archive : func.InputStream := blob "archive.zip" [x50; x4b]%byte.

Definition shouting : func.InputStream := blob "REPORT.TXT" (bytes_of "Fine.").

Definition photo : func.InputStream := blob "photo.jpeg" [xff; xd8]%byte.

(** A ".txt" blob holding Latin-1 text: 0xe9 opens a three-byte
    sequence and an ASCII letter follows. *)
Definition latin1 : func.InputStream := blob "menu.txt" [x63; x61; x66; xe9; x73]%byte.

Definition key_of : Azure.Credential := {| Azure.key := Some "0123456789abcdef" |}.

Definition client_of : Azure.Client :=
  {| Azure.endpoint := Some "https://ai.example.net/"; Azure.credential := key_of |}.

Definition denied : exn + list Azure.SentimentItem :=
  inl (Raised "ClientAuthenticationError" "Access denied due to invalid subscription key.").

Definition no_pages : exn + Azure.AnalyzeResult := inr {| Azure.pages := [] |}.

Definition unavailable : exn :=
  Raised "ServiceRequestError" "Cannot connect to host ai.example.net.".

Definition unreadable : exn :=
  Raised "HttpResponseError" "(InvalidRequest) The file is corrupted or format is unsupported.".

(** A configured world whose OCR backend refuses the submission. *)
Definition refusing_world : World :=
  {| getenv := configured;
     AzureKeyCredential := checked_credential;
     TextAnalyticsClient := checked_client;
     analyze_sentiment := fun _ _ => inr [];
     DocumentAnalysisClient := checked_client;
     begin_analyze_document := fun _ _ _ => inl unreadable |}.

Definition empty_note : func.InputStream := blob "empty.txt" [].

(** A name shorter than any of the suffixes. *)
Definition tiny : func.InputStream := blob "jpg" [xff; xd8]%byte.

(** A name of two accented letters, two bytes each. *)
Definition accented : func.InputStream :=
  blob (string_of_list_byte [xc3; xa9; xc3; xa9]%byte) [xff; xd8]%byte.

Definition picture : func.InputStream := blob "scan.jpg" [x89; x50; x4e; x47]%byte.

Definition nested_notes : func.InputStream :=
  blob "samples-workitems/2024/notes.txt" (bytes_of "I love this product!").

Definition disliked : Azure.SentimentItem :=
  {| Azure.id := "2";
     Azure.is_error := false;
     Azure.sentiment := Some "negative";
     Azure.confidence_scores :=
       Some {| Azure.positive := 0.02; Azure.neutral := 0.08; Azure.negative := 0.9 |} |}.

Definition no_documents : exn + list Azure.SentimentItem := inr [].

(** Scenario A of the specification. *)
Definition loved : Azure.SentimentItem :=
  {| Azure.id := "1";
     Azure.is_error := false;
     Azure.sentiment := Some "positive";
     Azure.confidence_scores :=
       Some {| Azure.positive := 0.95; Azure.neutral := 0.04; Azure.negative := 0.01 |} |}.

(** An item of the SDK's per-document error class. *)
Definition rejected : Azure.SentimentItem :=
  {| Azure.id := "1";
     Azure.is_error := true;
     Azure.sentiment := None;
     Azure.confidence_scores := None |}.

Definition flat_line (s : string) : Azure.DocumentLine :=
  {| Azure.content := s;
     Azure.polygon := [(0, 0); (1, 0); (1, 1); (0, 1)]%float;
     Azure.confidence := 0.5 |}.

(** Scenario B of the specification. *)
Definition invoice : Azure.AnalyzeResult :=
  {| Azure.pages :=
       [ {| Azure.page_number := 1;
            Azure.lines := [flat_line "Invoice #42"; flat_line "Total: $10.00"] |};
         {| Azure.page_number := 2;
            Azure.lines := [flat_line "Thank you"] |} ] |}.

End Scenario.

(** ** Running the scenarios of the specification *)

Example scenario_A :
  main (Scenario.world Scenario.configured (inr [Scenario.loved]) Scenario.no_pages)
       (Scenario.blob "notes.txt" (Scenario.bytes_of "I love this product!"))
       initial
  = (inr tt,
     {| trace := [LogInfo "Processing blob: notes.txt, Size: 20 bytes";
                  AnalyzeSentiment ["I love this product!"]];
        outputBlob :=
          Some (json.dumps
            (VDict [("documents",
               VList [VDict [("id", VStr "1");
                             ("sentiment", VStr "positive");
                             ("confidence_scores",
                               VDict [("positive", VFloat 0.95);
                                      ("neutral", VFloat 0.04);
                                      ("negative", VFloat 0.01)])]])])) |}).
Proof. vm_compute. reflexivity. Qed.

Example scenario_B :
  main (Scenario.world Scenario.configured Scenario.no_documents (inr Scenario.invoice))
       (Scenario.blob "scan.png" [x89; x50; x4e; x47]%byte)
       initial
  = (inr tt,
     {| trace := [LogInfo "Processing blob: scan.png, Size: 4 bytes";
                  BeginAnalyzeDocument "prebuilt-read" [x89; x50; x4e; x47]%byte;
                  PollerResult];
        outputBlob :=
          Some (json.dumps
            (VDict [("pages",
               VList [VDict [("page_number", VInt 1);
                             ("lines", VList [VStr "Invoice #42"; VStr "Total: $10.00"])];
                      VDict [("page_number", VInt 2);
                             ("lines", VList [VStr "Thank you"])]])])) |}).
Proof. vm_compute. reflexivity. Qed.

Example scenario_C :
  main (Scenario.world Scenario.configured Scenario.no_documents Scenario.no_pages)
       (Scenario.blob "archive.zip" [x50; x4b]%byte)
       initial
  = (inr tt,
     {| trace := [LogInfo "Processing blob: archive.zip, Size: 2 bytes";
                  LogWarning "Unsupported file type for blob: archive.zip"];
        outputBlob := None |}).
Proof. vm_compute. reflexivity. Qed.

(** ** The decoder on samples *)

Example utf8_two_bytes : Utf8.utf8_wf [xc3; xa9]%byte = true.
Proof. reflexivity. Qed.

Example utf8_four_bytes : Utf8.utf8_wf [xf0; x9f; x98; x80]%byte = true.
Proof. reflexivity. Qed.

Example utf8_overlong : Utf8.utf8_wf [xc0; x80]%byte = false.
Proof. reflexivity. Qed.

Example utf8_surrogate : Utf8.utf8_wf [xed; xa0; x80]%byte = false.
Proof. reflexivity. Qed.

Example utf8_beyond_range : Utf8.utf8_wf [xf4; x90; x80; x80]%byte = false.
Proof. reflexivity. Qed.

Example utf8_truncated : Utf8.utf8_wf [xe2; x82]%byte = false.
Proof. reflexivity. Qed.

Lemma ascii_is_wf (bs : list N) :
  Forall (fun b => (b < 128)%N) bs -> Utf8.wf bs = true.
Proof.
  induction 1 as [|b rest Hb _ IH]; simpl; [reflexivity|].
  apply N.ltb_lt in Hb. now rewrite Hb.
Qed.

Lemma stray_continuation_is_rejected (b : N) (rest : list N) :
  Utf8.cont b = true -> Utf8.wf (b :: rest) = false.
Proof.
  unfold Utf8.cont. intros H. apply andb_true_iff in H as [Hlo Hhi].
  apply N.leb_le in Hlo. apply N.leb_le in Hhi. simpl.
  replace (b <? 128)%N with false by (symmetry; apply N.ltb_ge; lia).
  unfold Utf8.between.
  replace (194 <=? b)%N with false by (symmetry; apply N.leb_gt; lia).
  replace (224 <=? b)%N with false by (symmetry; apply N.leb_gt; lia).
  replace (240 <=? b)%N with false by (symmetry; apply N.leb_gt; lia).
  reflexivity.
Qed.

(** ** Suffix tests *)

Lemma take_drop (n : nat) (s : string) : (Str.take n s ++ Str.drop n s)%string = s.
Proof.
  revert s; induction n as [|n IH]; intros [|a t]; simpl; try reflexivity.
  now rewrite IH.
Qed.

Lemma drop_append (p suffix : string) : Str.drop (String.length p) (p ++ suffix)%string = suffix.
Proof. induction p as [|a p IH]; simpl; [reflexivity | exact IH]. Qed.

Lemma length_append (p q : string) :
  String.length (p ++ q)%string = (String.length p + String.length q)%nat.
Proof. induction p as [|a p IH]; simpl; [reflexivity | now rewrite IH]. Qed.

Lemma endswith_spec (s suffix : string) :
  Str.endswith s suffix = true <-> has_suffix suffix s.
Proof.
  unfold Str.endswith, has_suffix; split.
  - intros H. apply andb_true_iff in H as [_ H].
    apply String.eqb_eq in H.
    remember (String.length s - String.length suffix)%nat as n eqn:En.
    exists (Str.take n s). rewrite <- H. symmetry; apply take_drop.
  - intros [p ->]. rewrite length_append. apply andb_true_iff; split.
    + apply Nat.leb_le; lia.
    + replace (String.length p + String.length suffix - String.length suffix)%nat
        with (String.length p) by lia.
      rewrite drop_append. apply String.eqb_refl.
Qed.

Lemma endswith_false (s suffix : string) :
  Str.endswith s suffix = false <-> ~ has_suffix suffix s.
Proof.
  rewrite <- endswith_spec. destruct (Str.endswith s suffix); split; intros H;
    try reflexivity; try discriminate; try (intros H'; discriminate).
  exfalso; apply H; reflexivity.
Qed.

(** ** The dispatcher *)

Lemma main_txt w b s :
  Str.endswith (func.name b) ".txt" = true ->
  main w b s
  = (logging_info (info_message b) ;;
     text <- lift (decode_utf8 (func.read b)) ;;
     result <- process_text w text ;;
     outputBlob_set (json.dumps result)) s.
Proof.
  intros H. unfold main, select, bind. rewrite H.
  destruct (logging_info (info_message b) s) as [[e|[]] s1]; [reflexivity|].
  destruct (lift (decode_utf8 (func.read b)) s1) as [[e|text] s2]; [reflexivity|].
  destruct (process_text w text s2) as [[e|r] s3]; reflexivity.
Qed.

Lemma main_image w b s :
  Str.endswith (func.name b) ".txt" = false ->
  Str.endswith (func.name b) ".jpg" || Str.endswith (func.name b) ".png" = true ->
  main w b s
  = (logging_info (info_message b) ;;
     result <- process_image w (func.read b) ;;
     outputBlob_set (json.dumps result)) s.
Proof.
  intros H1 H2. unfold main, select, bind. rewrite H1, H2.
  destruct (logging_info (info_message b) s) as [[e|[]] s1]; [reflexivity|].
  destruct (process_image w (func.read b) s1) as [[e|r] s2]; reflexivity.
Qed.

Lemma main_unsupported w b s :
  Str.endswith (func.name b) ".txt" = false ->
  Str.endswith (func.name b) ".jpg" = false ->
  Str.endswith (func.name b) ".png" = false ->
  main w b s
  = (inr tt, logged s [LogInfo (info_message b); LogWarning (warning_message b)]).
Proof.
  intros H1 H2 H3. unfold main, select, bind. rewrite H1, H2, H3. simpl.
  unfold logged. simpl. now rewrite <- app_assoc.
Qed.

(** C1. The dispatcher routes by exact, case-sensitive suffix of the blob
    name.  A name ending in ".txt" has its content decoded as UTF-8 and the
    text strategy run on the decoded string; otherwise a name ending in
    ".jpg" or ".png" has the image strategy run on the raw bytes; any other
    name runs neither strategy: the handler logs its warning and returns. *)
Theorem dispatch_by_suffix (w : World) (b : func.InputStream) (s : state) :
  (has_suffix ".txt" (func.name b) ->
   main w b s
   = (logging_info (info_message b) ;;
      text <- lift (decode_utf8 (func.read b)) ;;
      result <- process_text w text ;;
      outputBlob_set (json.dumps result)) s)
  /\ (~ has_suffix ".txt" (func.name b) ->
      has_suffix ".jpg" (func.name b) \/ has_suffix ".png" (func.name b) ->
      main w b s
      = (logging_info (info_message b) ;;
         result <- process_image w (func.read b) ;;
         outputBlob_set (json.dumps result)) s)
  /\ (~ supported (func.name b) ->
      main w b s
      = (logging_info (info_message b) ;;
         logging_warning (warning_message b)) s).
Proof.
  repeat split.
  - intros H. apply main_txt. now apply endswith_spec.
  - intros H1 H2. apply main_image.
    + now apply endswith_false.
    + apply orb_true_iff. destruct H2 as [H2|H2]; [left|right]; now apply endswith_spec.
  - intros H. unfold supported in H.
    rewrite main_unsupported.
    + unfold bind, logging_info, logging_warning, emit, logged. simpl.
      now rewrite <- app_assoc.
    + apply endswith_false; tauto.
    + apply endswith_false; tauto.
    + apply endswith_false; tauto.
Qed.

Lemma warnings_app (t u : list event) : warnings (t ++ u) = (warnings t + warnings u)%nat.
Proof. unfold warnings. now rewrite filter_app, length_app. Qed.

(** C2. A blob whose name ends in none of ".txt", ".jpg", ".png" leaves the
    output binding untouched, adds exactly one warning to the log, and the
    handler returns normally. *)
Theorem unsupported_is_noop (w : World) (b : func.InputStream) (s : state) :
  ~ supported (func.name b) ->
  main w b s
  = (inr tt, logged s [LogInfo (info_message b); LogWarning (warning_message b)])
  /\ outputBlob (snd (main w b s)) = outputBlob s
  /\ warnings (trace (snd (main w b s))) = S (warnings (trace s))
  /\ remote_calls (trace (snd (main w b s))) = remote_calls (trace s).
Proof.
  intros H. unfold supported in H.
  assert (E : main w b s
              = (inr tt, logged s [LogInfo (info_message b);
                                   LogWarning (warning_message b)])).
  { apply main_unsupported; apply endswith_false; tauto. }
  rewrite E. simpl. repeat split.
  - rewrite warnings_app. unfold warnings at 2. simpl. lia.
  - unfold remote_calls. rewrite filter_app. simpl. apply app_nil_r.
Qed.

(** C6. A ".txt" blob whose bytes are not valid UTF-8 makes the handler
    fail with the decoder's error, before either strategy runs, and the
    output binding is not set. *)
Theorem invalid_utf8_is_fatal (w : World) (b : func.InputStream) (s : state) :
  has_suffix ".txt" (func.name b) ->
  Utf8.utf8_wf (func.content b) = false ->
  main w b s = (inl UnicodeDecodeError, logged s [LogInfo (info_message b)])
  /\ outputBlob (snd (main w b s)) = outputBlob s.
Proof.
  intros Hn Hc. apply endswith_spec in Hn.
  assert (E : main w b s = (inl UnicodeDecodeError, logged s [LogInfo (info_message b)])).
  { rewrite (main_txt w b s Hn).
    unfold bind, logging_info, emit, decode_utf8, func.read. simpl.
    rewrite Hc. reflexivity. }
  rewrite E. split; reflexivity.
Qed.

(** ** The loops of the two strategies *)

Lemma for_each_append_line (lines : list Azure.DocumentLine) (n : Z)
      (acc : list value) (s : state) :
  for_each lines append_line (VDict [("page_number", VInt n); ("lines", VList acc)]) s
  = (inr (VDict [("page_number", VInt n);
                 ("lines", VList (acc ++ map VStr (map Azure.content lines)))]), s).
Proof.
  revert acc; induction lines as [|line rest IH]; intros acc; simpl.
  - now rewrite app_nil_r.
  - unfold bind at 1. unfold append_line at 1. unfold bind, lift, ret. simpl.
    rewrite IH. now rewrite <- app_assoc.
Qed.

Lemma for_each_append_page (pages : list Azure.DocumentPage)
      (acc : list value) (s : state) :
  for_each pages append_page (ImageResult acc) s
  = (inr (ImageResult (acc ++ map render_page pages)), s).
Proof.
  revert acc; induction pages as [|page rest IH]; intros acc; simpl.
  - now rewrite app_nil_r.
  - unfold bind at 1. unfold append_page at 1. unfold bind at 1.
    rewrite (for_each_append_line (Azure.lines page) (Azure.page_number page) [] s).
    unfold bind, lift, ret, ImageResult. simpl.
    fold (ImageResult (acc ++ [VDict [("page_number", VInt (Azure.page_number page));
        ("lines", VList (map VStr (map Azure.content (Azure.lines page))))]])).
    rewrite IH. unfold render_page, page_entry, page_text. simpl.
    now rewrite <- app_assoc.
Qed.

Lemma for_each_append_document (response : list Azure.SentimentItem)
      (acc : list value) (s : state) :
  for_each response append_document (TextResult acc) s
  = (match render_all response with
     | inr entries => inr (TextResult (acc ++ entries))
     | inl e => inl e
     end, s).
Proof.
  revert acc; induction response as [|doc rest IH]; intros acc; simpl.
  - now rewrite app_nil_r.
  - unfold bind at 1. unfold append_document at 1.
    unfold bind, lift, ret, getattr, raise. simpl.
    destruct (Azure.sentiment doc) as [label|]; [|reflexivity].
    destruct (Azure.confidence_scores doc) as [scores|]; [|reflexivity].
    unfold ret. simpl.
    specialize (IH (acc ++ [document_entry (Azure.id doc) label scores])).
    unfold TextResult, document_entry in IH |- *. rewrite IH.
    destruct (render_all rest) as [e|entries]; [reflexivity|].
    now rewrite <- app_assoc.
Qed.

(** The image strategy in a world whose constructors and backend
    succeed. *)
Lemma process_image_run (w : World) (image : list byte) (s : state)
      credential client poller result :
  AzureKeyCredential w (getenv w "AZURE_AI_KEY") = inr credential ->
  DocumentAnalysisClient w (getenv w "AZURE_AI_ENDPOINT") credential = inr client ->
  begin_analyze_document w client "prebuilt-read" image = inr poller ->
  Azure.result poller = inr result ->
  process_image w image s
  = (inr (ImageResult (map render_page (Azure.pages result))),
     logged s [BeginAnalyzeDocument "prebuilt-read" image; PollerResult]).
Proof.
  intros Hc Hd Hb Hr. unfold process_image, bind, lift, remote, emit, bind, ret.
  rewrite Hc, Hd. simpl. rewrite Hb. simpl. rewrite Hr. simpl.
  fold (ImageResult []). rewrite for_each_append_page. simpl.
  unfold logged. now rewrite <- app_assoc.
Qed.

(** The text strategy in a world whose constructors and remote call
    succeed. *)
Lemma process_text_run (w : World) (text : string) (s : state)
      credential client response :
  AzureKeyCredential w (getenv w "AZURE_AI_KEY") = inr credential ->
  TextAnalyticsClient w (getenv w "AZURE_AI_ENDPOINT") credential = inr client ->
  analyze_sentiment w client [text] = inr response ->
  process_text w text s
  = (match render_all response with
     | inr entries => inr (TextResult entries)
     | inl e => inl e
     end, logged s [AnalyzeSentiment [text]]).
Proof.
  intros Hc Ht Ha. unfold process_text, bind, lift, remote, emit, bind, ret.
  rewrite Hc, Ht. simpl. rewrite Ha. simpl.
  fold (TextResult []). rewrite for_each_append_document. reflexivity.
Qed.

Lemma logged_nil (s : state) : logged s [] = s.
Proof. destruct s as [t o]. unfold logged. simpl. now rewrite app_nil_r. Qed.

Lemma render_page_map (pages : list Azure.DocumentPage) :
  map render_page pages
  = map (fun page =>
           VDict [("page_number", VInt (Azure.page_number page));
                  ("lines", VList (map (fun line => VStr (Azure.content line))
                                       (Azure.lines page)))]) pages.
Proof.
  apply map_ext. intros page. unfold render_page, page_entry, page_text. simpl.
  now rewrite map_map.
Qed.

(** ** The image strategy *)

(** C4. When the OCR backend succeeds, the [pages] array of the image
    strategy has one entry per backend page, in the backend's order; each
    entry has that page's [page_number] and, as [lines], the [content] of
    the page's lines, element for element and in order.  Nothing else of a
    line reaches the output: two results with the same page numbers and
    line texts give the same envelope. *)
Theorem pages_in_backend_order (w : World) (image : list byte) (s : state)
        credential client poller result :
  AzureKeyCredential w (getenv w "AZURE_AI_KEY") = inr credential ->
  DocumentAnalysisClient w (getenv w "AZURE_AI_ENDPOINT") credential = inr client ->
  begin_analyze_document w client "prebuilt-read" image = inr poller ->
  Azure.result poller = inr result ->
  process_image w image s
  = (inr (VDict
       [("pages",
         VList (map (fun page =>
                  VDict [("page_number", VInt (Azure.page_number page));
                         ("lines", VList (map (fun line => VStr (Azure.content line))
                                              (Azure.lines page)))])
                  (Azure.pages result)))]),
     logged s [BeginAnalyzeDocument "prebuilt-read" image; PollerResult])
  /\ (forall result' : Azure.AnalyzeResult,
        map page_text (Azure.pages result') = map page_text (Azure.pages result) ->
        map render_page (Azure.pages result') = map render_page (Azure.pages result)).
Proof.
  intros Hc Hd Hb Hr. split.
  - rewrite (process_image_run w image s credential client poller result Hc Hd Hb Hr).
    unfold ImageResult. now rewrite render_page_map.
  - intros result' H.
    change render_page with (fun page => page_entry (fst (page_text page)) (snd (page_text page))).
    rewrite <- !(map_map page_text (fun t => page_entry (fst t) (snd t))).
    now rewrite H.
Qed.

(** ** The text strategy *)

Lemma render_all_rendered (response : list Azure.SentimentItem) :
  (forall doc, In doc response -> rendered doc <> None) ->
  exists entries,
    render_all response = inr entries
    /\ Forall2 (fun doc entry => rendered doc = Some entry) response entries.
Proof.
  induction response as [|doc rest IH]; intros H.
  - exists []. split; [reflexivity | constructor].
  - destruct IH as [entries [E F]]; [intros d Hd; apply H; now right|].
    pose proof (H doc (or_introl eq_refl)) as Hdoc.
    unfold rendered in Hdoc. simpl. rewrite E.
    destruct (Azure.sentiment doc) as [label|] eqn:Es; [|congruence].
    destruct (Azure.confidence_scores doc) as [scores|] eqn:Ec; [|congruence].
    eexists; split; [reflexivity|]. constructor; [|exact F].
    unfold rendered. now rewrite Es, Ec.
Qed.

Lemma render_all_missing (response : list Azure.SentimentItem) :
  (exists doc, In doc response /\ rendered doc = None) ->
  exists attr, render_all response = inl (AttributeError attr).
Proof.
  induction response as [|doc rest IH]; intros [d [Hin Hd]]; [destruct Hin|].
  simpl. destruct (Azure.sentiment doc) as [label|] eqn:Es; [|eauto].
  destruct (Azure.confidence_scores doc) as [scores|] eqn:Ec; [|eauto].
  destruct Hin as [->|Hin].
  - unfold rendered in Hd. rewrite Es, Ec in Hd. discriminate.
  - destruct IH as [attr E]; [eauto|]. rewrite E. eauto.
Qed.

(** C5. A ".txt" blob of valid UTF-8, a backend that answers with one
    result per submitted document, each with its attributes and with
    scores in [0,1]: the written envelope's [documents] array has as many
    entries as documents were submitted, namely one; the entries are the
    backend's results in the backend's order, each with its id, sentiment
    label and three scores; and every score in the output lies in
    [0,1]. *)
Theorem documents_follow_the_response (w : World) (b : func.InputStream) (s : state)
        text credential client response :
  has_suffix ".txt" (func.name b) ->
  decode_utf8 (func.content b) = inr text ->
  AzureKeyCredential w (getenv w "AZURE_AI_KEY") = inr credential ->
  TextAnalyticsClient w (getenv w "AZURE_AI_ENDPOINT") credential = inr client ->
  analyze_sentiment w client [text] = inr response ->
  List.length response = List.length [text] ->
  (forall doc, In doc response ->
     exists label scores,
       Azure.sentiment doc = Some label
       /\ Azure.confidence_scores doc = Some scores
       /\ scores_in_unit scores) ->
  exists envelope,
    main w b s = (inr tt, written s [LogInfo (info_message b); AnalyzeSentiment [text]] envelope)
    /\ List.length (documents_of envelope) = 1%nat
    /\ Forall2 (fun doc entry =>
                  exists label scores,
                    Azure.sentiment doc = Some label
                    /\ Azure.confidence_scores doc = Some scores
                    /\ entry = document_entry (Azure.id doc) label scores)
               response (documents_of envelope)
    /\ Forall (fun entry => Forall (fun f => in_unit f = true) (scores_of entry))
              (documents_of envelope).
Proof.
  intros Hn Hd Hc Ht Ha Hlen Hdocs.
  destruct (render_all_rendered response) as [entries [E F]].
  { intros doc Hin. destruct (Hdocs doc Hin) as [l [c [Hs [Hcs _]]]].
    unfold rendered. rewrite Hs, Hcs. discriminate. }
  exists (TextResult entries). split; [|split; [|split]].
  - apply endswith_spec in Hn. rewrite (main_txt w b s Hn).
    unfold bind at 1. unfold logging_info, emit.
    unfold bind at 1. unfold func.read. rewrite Hd. simpl.
    unfold bind at 1.
    rewrite (process_text_run w text _ credential client response Hc Ht Ha), E.
    unfold outputBlob_set, written, logged. simpl. now rewrite <- app_assoc.
  - simpl. rewrite <- (Forall2_length F). exact Hlen.
  - simpl. clear E Hlen Ha. induction F as [|doc entry rest entries' Hr F IH]; constructor.
    + destruct (Hdocs doc (or_introl eq_refl)) as [l [c [Hs [Hcs _]]]].
      exists l, c. repeat split; try assumption.
      unfold rendered in Hr. rewrite Hs, Hcs in Hr. congruence.
    + apply IH. intros d Hin. apply Hdocs. now right.
  - simpl. clear E Hlen Ha. induction F as [|doc entry rest entries' Hr F IH]; constructor.
    + destruct (Hdocs doc (or_introl eq_refl)) as [l [c [Hs [Hcs [Hp [Hu Hg]]]]]].
      unfold rendered in Hr. rewrite Hs, Hcs in Hr. injection Hr as <-.
      simpl. repeat constructor; assumption.
    + apply IH. intros d Hin. apply Hdocs. now right.
Qed.

(** ** Empty backend results *)

(** C10. A supported blob whose backend call succeeds with an empty
    collection still has its envelope written: [documents] empty for a
    ".txt" blob, [pages] empty for a ".jpg" or ".png" blob. *)
Theorem empty_result_is_written (w : World) (b : func.InputStream) (s : state) :
  (forall text credential client,
     has_suffix ".txt" (func.name b) ->
     decode_utf8 (func.content b) = inr text ->
     AzureKeyCredential w (getenv w "AZURE_AI_KEY") = inr credential ->
     TextAnalyticsClient w (getenv w "AZURE_AI_ENDPOINT") credential = inr client ->
     analyze_sentiment w client [text] = inr [] ->
     main w b s
     = (inr tt,
        written s [LogInfo (info_message b); AnalyzeSentiment [text]]
                (VDict [("documents", VList [])])))
  /\ (forall credential client poller,
        ~ has_suffix ".txt" (func.name b) ->
        has_suffix ".jpg" (func.name b) \/ has_suffix ".png" (func.name b) ->
        AzureKeyCredential w (getenv w "AZURE_AI_KEY") = inr credential ->
        DocumentAnalysisClient w (getenv w "AZURE_AI_ENDPOINT") credential = inr client ->
        begin_analyze_document w client "prebuilt-read" (func.content b) = inr poller ->
        Azure.result poller = inr {| Azure.pages := [] |} ->
        main w b s
        = (inr tt,
           written s [LogInfo (info_message b);
                      BeginAnalyzeDocument "prebuilt-read" (func.content b);
                      PollerResult]
                   (VDict [("pages", VList [])]))).
Proof.
  split.
  - intros text credential client Hn Hd Hc Ht Ha.
    apply endswith_spec in Hn. rewrite (main_txt w b s Hn).
    unfold bind at 1. unfold logging_info, emit.
    unfold bind at 1. unfold func.read. rewrite Hd. simpl.
    unfold bind at 1.
    rewrite (process_text_run w text _ credential client [] Hc Ht Ha). simpl.
    unfold outputBlob_set, written, logged, TextResult. simpl. now rewrite <- app_assoc.
  - intros credential client poller Hn Hi Hc Hd Hb Hr.
    apply endswith_false in Hn.
    assert (Hi' : Str.endswith (func.name b) ".jpg" || Str.endswith (func.name b) ".png" = true).
    { apply orb_true_iff. destruct Hi as [Hi|Hi]; [left|right]; now apply endswith_spec. }
    rewrite (main_image w b s Hn Hi').
    unfold bind at 1. unfold logging_info, emit.
    unfold bind at 1. unfold func.read.
    rewrite (process_image_run w (func.content b) _ credential client poller _ Hc Hd Hb Hr).
    simpl. unfold outputBlob_set, written, logged, ImageResult. simpl.
    now rewrite <- app_assoc.
Qed.

(** ** The shape of the envelope *)

Lemma process_text_cases (w : World) (text : string) (s : state) :
  (exists e evs, process_text w text s = (inl e, logged s evs))
  \/ (exists documents evs, process_text w text s = (inr (TextResult documents), logged s evs)).
Proof.
  unfold process_text, bind, lift, remote, emit, bind, ret, raise.
  destruct (AzureKeyCredential w _) as [e|credential]; simpl.
  { left. exists e, []. now rewrite logged_nil. }
  destruct (TextAnalyticsClient w _ credential) as [e|client]; simpl.
  { left. exists e, []. now rewrite logged_nil. }
  destruct (analyze_sentiment w client [text]) as [e|response]; simpl.
  { left. exists e, [AnalyzeSentiment [text]]. reflexivity. }
  fold (TextResult []). rewrite for_each_append_document. simpl.
  destruct (render_all response) as [e|entries].
  - left. exists e, [AnalyzeSentiment [text]]. reflexivity.
  - right. exists entries, [AnalyzeSentiment [text]]. reflexivity.
Qed.

Lemma process_image_cases (w : World) (image : list byte) (s : state) :
  (exists e evs, process_image w image s = (inl e, logged s evs))
  \/ (exists pages evs, process_image w image s = (inr (ImageResult pages), logged s evs)).
Proof.
  unfold process_image, bind, lift, remote, emit, bind, ret, raise.
  destruct (AzureKeyCredential w _) as [e|credential]; simpl.
  { left. exists e, []. now rewrite logged_nil. }
  destruct (DocumentAnalysisClient w _ credential) as [e|client]; simpl.
  { left. exists e, []. now rewrite logged_nil. }
  destruct (begin_analyze_document w client "prebuilt-read" image) as [e|poller]; simpl.
  { left. exists e, [BeginAnalyzeDocument "prebuilt-read" image]. reflexivity. }
  destruct (Azure.result poller) as [e|result]; simpl.
  { left. exists e, [BeginAnalyzeDocument "prebuilt-read" image; PollerResult].
    unfold logged. simpl. now rewrite <- app_assoc. }
  fold (ImageResult []). rewrite for_each_append_page. simpl.
  right. exists (map render_page (Azure.pages result)),
           [BeginAnalyzeDocument "prebuilt-read" image; PollerResult].
  unfold logged. simpl. now rewrite <- app_assoc.
Qed.

(** C9. Whatever an invocation writes to the output binding is an
    envelope with a single key: [documents] when the blob went to the text
    strategy, [pages] when it went to the image strategy.  The two keys are
    never both present, and no other key tells the variants apart. *)
Theorem envelope_has_one_array (w : World) (b : func.InputStream) (s : state)
        (envelope : value) :
  outputBlob s = None ->
  outputBlob (snd (main w b s)) = Some (json.dumps envelope) ->
  ((has_suffix ".txt" (func.name b) /\ Dict.keys envelope = ["documents"])
   \/ (~ has_suffix ".txt" (func.name b) /\ Dict.keys envelope = ["pages"]))
  /\ Dict.has_key "documents" envelope && Dict.has_key "pages" envelope = false.
Proof.
  intros H0 H.
  assert (K : (has_suffix ".txt" (func.name b) /\ exists l, envelope = TextResult l)
              \/ (~ has_suffix ".txt" (func.name b) /\ exists l, envelope = ImageResult l)).
  { destruct (Str.endswith (func.name b) ".txt") eqn:Et.
    - left. split; [now apply endswith_spec|].
      rewrite (main_txt w b s Et) in H.
      unfold bind at 1 in H. unfold logging_info, emit in H.
      unfold bind at 1 in H.
      destruct (decode_utf8 (func.read b)) as [e|text]; simpl in H; [congruence|].
      unfold bind at 1 in H.
      match type of H with context [process_text w text ?s1] =>
        destruct (process_text_cases w text s1) as [[e [evs E]]|[l [evs E]]];
        rewrite E in H; simpl in H
      end; [congruence|].
      exists l. congruence.
    - right. split; [now apply endswith_false|].
      destruct (Str.endswith (func.name b) ".jpg" || Str.endswith (func.name b) ".png") eqn:Ei.
      + rewrite (main_image w b s Et Ei) in H.
        unfold bind at 1 in H. unfold logging_info, emit in H.
        unfold bind at 1 in H.
        match type of H with context [process_image w ?i ?s1] =>
          destruct (process_image_cases w i s1) as [[e [evs E]]|[l [evs E]]];
          rewrite E in H; simpl in H
        end; [congruence|].
        exists l. congruence.
      + apply orb_false_iff in Ei as [Ej Ep].
        rewrite (main_unsupported w b s Et Ej Ep) in H. simpl in H. congruence. }
  destruct K as [[Hn [l ->]]|[Hn [l ->]]]; split; try reflexivity.
  - left. split; [exact Hn | reflexivity].
  - right. split; [exact Hn | reflexivity].
Qed.

(** ** Items the backend flagged as failed *)

Lemma rendered_none (doc : Azure.SentimentItem) :
  rendered doc = None
  <-> Azure.sentiment doc = None \/ Azure.confidence_scores doc = None.
Proof.
  unfold rendered.
  destruct (Azure.sentiment doc), (Azure.confidence_scores doc); split; intros H;
    try reflexivity; try discriminate; try (now left); try (now right).
  destruct H; discriminate.
Qed.

Lemma render_all_flagged (response : list Azure.SentimentItem) :
  Forall Azure.sdk_item response ->
  (exists doc, In doc response /\ Azure.is_error doc = true) ->
  render_all response = inl (AttributeError "sentiment").
Proof.
  induction 1 as [|doc rest Hdoc _ IH]; intros [d [Hin Hd]]; [destruct Hin|].
  simpl. destruct Hdoc as [[Hf [Hs Hc]]|[_ [Hs _]]].
  - destruct (Azure.sentiment doc) as [label|]; [|congruence].
    destruct (Azure.confidence_scores doc) as [scores|]; [|congruence].
    destruct Hin as [->|Hin]; [congruence|].
    rewrite IH; [reflexivity | eauto].
  - now rewrite Hs.
Qed.

(** C3. The items of a sentiment response are the SDK's: results, or
    per-document errors, which are flagged and have no [sentiment] and no
    [confidence_scores].  When some returned item is flagged, the text
    strategy fails: reading [sentiment] on the first flagged item raises,
    after the remote call, and no envelope is returned, so no item, flagged
    or not, is rendered.  The handler then fails with that exception and
    the output binding is not set. *)
Theorem flagged_item_fails_the_strategy (w : World) (text : string) (s : state)
        credential client response :
  AzureKeyCredential w (getenv w "AZURE_AI_KEY") = inr credential ->
  TextAnalyticsClient w (getenv w "AZURE_AI_ENDPOINT") credential = inr client ->
  analyze_sentiment w client [text] = inr response ->
  Forall Azure.sdk_item response ->
  (exists doc, In doc response /\ Azure.is_error doc = true) ->
  process_text w text s
  = (inl (AttributeError "sentiment"), logged s [AnalyzeSentiment [text]])
  /\ (forall b : func.InputStream,
        has_suffix ".txt" (func.name b) ->
        decode_utf8 (func.content b) = inr text ->
        main w b s
        = (inl (AttributeError "sentiment"),
           logged s [LogInfo (info_message b); AnalyzeSentiment [text]])).
Proof.
  intros Hc Ht Ha Hsdk Hflag.
  pose proof (render_all_flagged response Hsdk Hflag) as E.
  split.
  - now rewrite (process_text_run w text s credential client response Hc Ht Ha), E.
  - intros b Hn Hd. apply endswith_spec in Hn. rewrite (main_txt w b s Hn).
    unfold bind at 1. unfold logging_info, emit.
    unfold bind at 1. unfold func.read. rewrite Hd. simpl.
    unfold bind at 1.
    rewrite (process_text_run w text _ credential client response Hc Ht Ha), E.
    unfold logged. simpl. now rewrite <- app_assoc.
Qed.

(** ** Configuration *)

(** C7, as the code has it.  Neither strategy checks the endpoint or the
    key, and there is no configuration error of the handler's own: each
    strategy hands the two values, absent or not, to the credential and
    client constructors.  With constructors that refuse an absent value,
    as the SDK's do, an unset key or endpoint makes the strategy fail at
    construction, before any remote call.  Whenever a constructor raises,
    the strategy fails with that exception and nothing else has happened.
    When both constructors accept the values, the remote call is made
    through the client built from exactly those values, and the outcome
    is that call's. *)
Theorem configuration_is_left_to_the_constructors
        (w : World) (text : string) (image : list byte) (s : state) :
  (rejects_unset w ->
   unset_setting w ->
   (exists e, process_text w text s = (inl e, s))
   /\ (exists e, process_image w image s = (inl e, s)))
  /\ (forall e,
        AzureKeyCredential w (getenv w "AZURE_AI_KEY") = inl e ->
        process_text w text s = (inl e, s) /\ process_image w image s = (inl e, s))
  /\ (forall credential e,
        AzureKeyCredential w (getenv w "AZURE_AI_KEY") = inr credential ->
        TextAnalyticsClient w (getenv w "AZURE_AI_ENDPOINT") credential = inl e ->
        process_text w text s = (inl e, s))
  /\ (forall credential e,
        AzureKeyCredential w (getenv w "AZURE_AI_KEY") = inr credential ->
        DocumentAnalysisClient w (getenv w "AZURE_AI_ENDPOINT") credential = inl e ->
        process_image w image s = (inl e, s))
  /\ (forall credential client,
        AzureKeyCredential w (getenv w "AZURE_AI_KEY") = inr credential ->
        TextAnalyticsClient w (getenv w "AZURE_AI_ENDPOINT") credential = inr client ->
        process_text w text s
        = (match analyze_sentiment w client [text] with
           | inl e => inl e
           | inr response =>
               match render_all response with
               | inl e => inl e
               | inr entries => inr (TextResult entries)
               end
           end, logged s [AnalyzeSentiment [text]]))
  /\ (forall credential client,
        AzureKeyCredential w (getenv w "AZURE_AI_KEY") = inr credential ->
        DocumentAnalysisClient w (getenv w "AZURE_AI_ENDPOINT") credential = inr client ->
        process_image w image s
        = match begin_analyze_document w client "prebuilt-read" image with
          | inl e => (inl e, logged s [BeginAnalyzeDocument "prebuilt-read" image])
          | inr poller =>
              (match Azure.result poller with
               | inl e => inl e
               | inr result => inr (ImageResult (map render_page (Azure.pages result)))
               end,
               logged s [BeginAnalyzeDocument "prebuilt-read" image; PollerResult])
          end).
Proof.
  assert (K : forall e,
             AzureKeyCredential w (getenv w "AZURE_AI_KEY") = inl e ->
             process_text w text s = (inl e, s) /\ process_image w image s = (inl e, s)).
  { intros e E. split.
    - unfold process_text, bind, lift, raise. now rewrite E.
    - unfold process_image, bind, lift, raise. now rewrite E. }
  assert (T : forall credential e,
             AzureKeyCredential w (getenv w "AZURE_AI_KEY") = inr credential ->
             TextAnalyticsClient w (getenv w "AZURE_AI_ENDPOINT") credential = inl e ->
             process_text w text s = (inl e, s)).
  { intros credential e Hc Ht.
    unfold process_text, bind, lift, raise, ret. now rewrite Hc, Ht. }
  assert (D : forall credential e,
             AzureKeyCredential w (getenv w "AZURE_AI_KEY") = inr credential ->
             DocumentAnalysisClient w (getenv w "AZURE_AI_ENDPOINT") credential = inl e ->
             process_image w image s = (inl e, s)).
  { intros credential e Hc Hd.
    unfold process_image, bind, lift, raise, ret. now rewrite Hc, Hd. }
  split; [|split; [exact K|split; [exact T|split; [exact D|split]]]].
  - intros [[ek Hk] [Ht Hd]] U.
    destruct (AzureKeyCredential w (getenv w "AZURE_AI_KEY")) as [e|credential] eqn:Hc.
    { destruct (K e eq_refl) as [K1 K2]. eauto. }
    destruct U as [U|U].
    { rewrite U in Hc. congruence. }
    destruct (Ht credential) as [et Et]. destruct (Hd credential) as [ed Ed].
    rewrite <- U in Et, Ed. split.
    + exists et. exact (T credential et eq_refl Et).
    + exists ed. exact (D credential ed eq_refl Ed).
  - intros credential client Hc Ht.
    unfold process_text, bind, lift, remote, emit, bind, raise, ret.
    rewrite Hc, Ht. simpl.
    destruct (analyze_sentiment w client [text]) as [e|response]; simpl; [reflexivity|].
    fold (TextResult []). now rewrite for_each_append_document.
  - intros credential client Hc Hd.
    unfold process_image, bind, lift, remote, emit, bind, raise, ret.
    rewrite Hc, Hd. simpl.
    destruct (begin_analyze_document w client "prebuilt-read" image) as [e|poller]; simpl;
      [reflexivity|].
    destruct (Azure.result poller) as [e|result]; simpl.
    + unfold logged. simpl. now rewrite <- app_assoc.
    + fold (ImageResult []). rewrite for_each_append_page. simpl.
      unfold logged. simpl. now rewrite <- app_assoc.
Qed.

(** With the key variable set to the empty string the constructors accept
    it, the sentiment call is issued and it is the backend that refuses:
    the claim C7, as stated, fails there. *)
Lemma empty_key_reaches_the_backend :
  config_unusable (Scenario.world Scenario.empty_key Scenario.denied Scenario.no_pages)
  /\ process_text (Scenario.world Scenario.empty_key Scenario.denied Scenario.no_pages)
                  "I love this product!" initial
     = (inl (Raised "ClientAuthenticationError"
                    "Access denied due to invalid subscription key."),
        logged initial [AnalyzeSentiment ["I love this product!"]])
  /\ ~ fails_fast_unconfigured
       (Scenario.world Scenario.empty_key Scenario.denied Scenario.no_pages).
Proof.
  assert (U : config_unusable
                (Scenario.world Scenario.empty_key Scenario.denied Scenario.no_pages)).
  { right. right. reflexivity. }
  split; [exact U|]. split; [vm_compute; reflexivity|].
  intros H.
  destruct (H U "I love this product!" [] initial) as [[_ Hr] _].
  vm_compute in Hr. discriminate.
Qed.

(** ** The theorems at work on concrete blobs *)

Lemma unsupported_by_test (name : string) :
  Str.endswith name ".txt" = false ->
  Str.endswith name ".jpg" = false ->
  Str.endswith name ".png" = false ->
  ~ supported name.
Proof.
  intros Ht Hj Hp [H|[H|H]]; apply endswith_spec in H; congruence.
Qed.

Lemma dispatch_by_suffix_witness :
  (main (Scenario.world Scenario.configured (inr [Scenario.loved]) (inr Scenario.invoice))
        Scenario.notes initial
   = (logging_info (info_message Scenario.notes) ;;
      text <- lift (decode_utf8 (func.read Scenario.notes)) ;;
      result <- process_text
                  (Scenario.world Scenario.configured (inr [Scenario.loved])
                                  (inr Scenario.invoice)) text ;;
      outputBlob_set (json.dumps result)) initial)
  /\ (main (Scenario.world Scenario.configured (inr [Scenario.loved]) (inr Scenario.invoice))
           Scenario.scan initial
      = (logging_info (info_message Scenario.scan) ;;
         result <- process_image
                     (Scenario.world Scenario.configured (inr [Scenario.loved])
                                     (inr Scenario.invoice))
                     (func.read Scenario.scan) ;;
         outputBlob_set (json.dumps result)) initial)
  /\ (main (Scenario.world Scenario.configured (inr [Scenario.loved]) (inr Scenario.invoice))
           Scenario.shouting initial
      = (logging_info (info_message Scenario.shouting) ;;
         logging_warning (warning_message Scenario.shouting)) initial)
  /\ (main (Scenario.world Scenario.configured (inr [Scenario.loved]) (inr Scenario.invoice))
           Scenario.photo initial
      = (logging_info (info_message Scenario.photo) ;;
         logging_warning (warning_message Scenario.photo)) initial).
Proof.
  split; [|split; [|split]].
  - apply (proj1 (dispatch_by_suffix _ Scenario.notes initial)).
    exists "notes". reflexivity.
  - apply (proj1 (proj2 (dispatch_by_suffix _ Scenario.scan initial))).
    + apply endswith_false. reflexivity.
    + right. exists "scan". reflexivity.
  - apply (proj2 (proj2 (dispatch_by_suffix _ Scenario.shouting initial))).
    apply unsupported_by_test; reflexivity.
  - apply (proj2 (proj2 (dispatch_by_suffix _ Scenario.photo initial))).
    apply unsupported_by_test; reflexivity.
Defined.

Lemma unsupported_is_noop_witness :
  main (Scenario.world Scenario.configured Scenario.no_documents Scenario.no_pages)
       Scenario.archive initial
  = (inr tt,
     logged initial [LogInfo (info_message Scenario.archive);
                     LogWarning (warning_message Scenario.archive)])
  /\ outputBlob
       (snd (main (Scenario.world Scenario.configured Scenario.no_documents
                                  Scenario.no_pages)
                  Scenario.archive initial))
     = outputBlob initial
  /\ warnings
       (trace (snd (main (Scenario.world Scenario.configured Scenario.no_documents
                                         Scenario.no_pages)
                         Scenario.archive initial)))
     = S (warnings (trace initial))
  /\ remote_calls
       (trace (snd (main (Scenario.world Scenario.configured Scenario.no_documents
                                         Scenario.no_pages)
                         Scenario.archive initial)))
     = remote_calls (trace initial).
Proof.
  apply (unsupported_is_noop _ Scenario.archive initial).
  apply unsupported_by_test; reflexivity.
Defined.

Lemma invalid_utf8_is_fatal_witness :
  main (Scenario.world Scenario.configured (inr [Scenario.loved]) Scenario.no_pages)
       Scenario.latin1 initial
  = (inl UnicodeDecodeError, logged initial [LogInfo (info_message Scenario.latin1)])
  /\ outputBlob
       (snd (main (Scenario.world Scenario.configured (inr [Scenario.loved])
                                  Scenario.no_pages)
                  Scenario.latin1 initial))
     = outputBlob initial.
Proof.
  apply (invalid_utf8_is_fatal _ Scenario.latin1 initial).
  - exists "menu". reflexivity.
  - vm_compute. reflexivity.
Defined.

Lemma pages_in_backend_order_witness :
  process_image
    (Scenario.world Scenario.configured Scenario.no_documents (inr Scenario.invoice))
    (func.content Scenario.scan) initial
  = (inr (VDict
       [("pages",
         VList (map (fun page =>
                  VDict [("page_number", VInt (Azure.page_number page));
                         ("lines", VList (map (fun line => VStr (Azure.content line))
                                              (Azure.lines page)))])
                  (Azure.pages Scenario.invoice)))]),
     logged initial [BeginAnalyzeDocument "prebuilt-read" (func.content Scenario.scan);
                     PollerResult])
  /\ (forall result' : Azure.AnalyzeResult,
        map page_text (Azure.pages result') = map page_text (Azure.pages Scenario.invoice) ->
        map render_page (Azure.pages result') = map render_page (Azure.pages Scenario.invoice)).
Proof.
  apply (pages_in_backend_order
           (Scenario.world Scenario.configured Scenario.no_documents (inr Scenario.invoice))
           (func.content Scenario.scan) initial
           Scenario.key_of Scenario.client_of
           {| Azure.result := inr Scenario.invoice |} Scenario.invoice);
    reflexivity.
Defined.

Lemma documents_follow_the_response_witness :
  exists envelope,
    main (Scenario.world Scenario.configured (inr [Scenario.loved]) Scenario.no_pages)
         Scenario.notes initial
    = (inr tt,
       written initial [LogInfo (info_message Scenario.notes);
                        AnalyzeSentiment ["I love this product!"]] envelope)
    /\ List.length (documents_of envelope) = 1%nat
    /\ Forall2 (fun doc entry =>
                  exists label scores,
                    Azure.sentiment doc = Some label
                    /\ Azure.confidence_scores doc = Some scores
                    /\ entry = document_entry (Azure.id doc) label scores)
               [Scenario.loved] (documents_of envelope)
    /\ Forall (fun entry => Forall (fun f => in_unit f = true) (scores_of entry))
              (documents_of envelope).
Proof.
  apply (documents_follow_the_response
           (Scenario.world Scenario.configured (inr [Scenario.loved]) Scenario.no_pages)
           Scenario.notes initial "I love this product!"
           Scenario.key_of Scenario.client_of [Scenario.loved]).
  - exists "notes". reflexivity.
  - vm_compute. reflexivity.
  - reflexivity.
  - reflexivity.
  - reflexivity.
  - reflexivity.
  - intros doc [<-|[]].
    exists "positive",
      {| Azure.positive := 0.95; Azure.neutral := 0.04; Azure.negative := 0.01 |}.
    repeat split; reflexivity.
Defined.

Lemma empty_result_is_written_witness :
  main (Scenario.world Scenario.configured Scenario.no_documents Scenario.no_pages)
       Scenario.notes initial
  = (inr tt,
     written initial [LogInfo (info_message Scenario.notes);
                      AnalyzeSentiment ["I love this product!"]]
             (VDict [("documents", VList [])]))
  /\ main (Scenario.world Scenario.configured Scenario.no_documents Scenario.no_pages)
          Scenario.scan initial
     = (inr tt,
        written initial [LogInfo (info_message Scenario.scan);
                         BeginAnalyzeDocument "prebuilt-read" (func.content Scenario.scan);
                         PollerResult]
                (VDict [("pages", VList [])])).
Proof.
  split.
  - apply (proj1 (empty_result_is_written
                    (Scenario.world Scenario.configured Scenario.no_documents
                                    Scenario.no_pages)
                    Scenario.notes initial)
                 "I love this product!" Scenario.key_of Scenario.client_of).
    + exists "notes". reflexivity.
    + vm_compute. reflexivity.
    + reflexivity.
    + reflexivity.
    + reflexivity.
  - apply (proj2 (empty_result_is_written
                    (Scenario.world Scenario.configured Scenario.no_documents
                                    Scenario.no_pages)
                    Scenario.scan initial)
                 Scenario.key_of Scenario.client_of
                 {| Azure.result := Scenario.no_pages |}).
    + apply endswith_false. reflexivity.
    + right. exists "scan". reflexivity.
    + reflexivity.
    + reflexivity.
    + reflexivity.
    + reflexivity.
Defined.

Lemma envelope_has_one_array_witness :
  ((has_suffix ".txt" (func.name Scenario.scan)
    /\ Dict.keys (ImageResult (map render_page (Azure.pages Scenario.invoice)))
       = ["documents"])
   \/ (~ has_suffix ".txt" (func.name Scenario.scan)
       /\ Dict.keys (ImageResult (map render_page (Azure.pages Scenario.invoice)))
          = ["pages"]))
  /\ Dict.has_key "documents" (ImageResult (map render_page (Azure.pages Scenario.invoice)))
     && Dict.has_key "pages" (ImageResult (map render_page (Azure.pages Scenario.invoice)))
     = false.
Proof.
  apply (envelope_has_one_array
           (Scenario.world Scenario.configured Scenario.no_documents (inr Scenario.invoice))
           Scenario.scan initial).
  - reflexivity.
  - vm_compute. reflexivity.
Defined.

Lemma flagged_item_fails_the_strategy_witness :
  process_text (Scenario.world Scenario.configured
                               (inr [Scenario.loved; Scenario.rejected])
                               Scenario.no_pages)
               "I love this product!" initial
  = (inl (AttributeError "sentiment"),
     logged initial [AnalyzeSentiment ["I love this product!"]])
  /\ (forall b : func.InputStream,
        has_suffix ".txt" (func.name b) ->
        decode_utf8 (func.content b) = inr "I love this product!" ->
        main (Scenario.world Scenario.configured
                             (inr [Scenario.loved; Scenario.rejected])
                             Scenario.no_pages)
             b initial
        = (inl (AttributeError "sentiment"),
           logged initial [LogInfo (info_message b);
                           AnalyzeSentiment ["I love this product!"]])).
Proof.
  apply (flagged_item_fails_the_strategy
           (Scenario.world Scenario.configured
                           (inr [Scenario.loved; Scenario.rejected])
                           Scenario.no_pages)
           "I love this product!" initial
           Scenario.key_of Scenario.client_of
           [Scenario.loved; Scenario.rejected]
           eq_refl eq_refl eq_refl).
  - apply Forall_cons; [left; repeat split; discriminate|].
    apply Forall_cons; [right; repeat split; reflexivity|].
    apply Forall_nil.
  - exists Scenario.rejected. split; [right; left; reflexivity | reflexivity].
Defined.

Lemma configuration_is_left_to_the_constructors_witness :
  ((exists e,
      process_text (Scenario.world Scenario.no_endpoint Scenario.no_documents
                                   Scenario.no_pages)
                   "I love this product!" initial
      = (inl e, initial))
   /\ (exists e,
         process_image (Scenario.world Scenario.no_endpoint Scenario.no_documents
                                       Scenario.no_pages)
                       (func.content Scenario.scan) initial
         = (inl e, initial)))
  /\ (process_text (Scenario.world Scenario.unset Scenario.no_documents Scenario.no_pages)
                   "I love this product!" initial
      = (inl (Raised "TypeError" "key must be a string."), initial)
      /\ process_image (Scenario.world Scenario.unset Scenario.no_documents
                                       Scenario.no_pages)
                       (func.content Scenario.scan) initial
         = (inl (Raised "TypeError" "key must be a string."), initial))
  /\ process_text (Scenario.world Scenario.empty_key Scenario.denied Scenario.no_pages)
                  "I love this product!" initial
     = (match analyze_sentiment
                (Scenario.world Scenario.empty_key Scenario.denied Scenario.no_pages)
                {| Azure.endpoint := Some "https://ai.example.net/";
                   Azure.credential := {| Azure.key := Some "" |} |}
                ["I love this product!"] with
        | inl e => inl e
        | inr response =>
            match render_all response with
            | inl e => inl e
            | inr entries => inr (TextResult entries)
            end
        end, logged initial [AnalyzeSentiment ["I love this product!"]]).
Proof.
  split; [|split].
  - apply (proj1 (configuration_is_left_to_the_constructors
                    (Scenario.world Scenario.no_endpoint Scenario.no_documents
                                    Scenario.no_pages)
                    "I love this product!" (func.content Scenario.scan) initial)).
    + split; [|split].
      * eexists. reflexivity.
      * intros credential. eexists. reflexivity.
      * intros credential. eexists. reflexivity.
    + right. reflexivity.
  - apply (proj1 (proj2 (configuration_is_left_to_the_constructors
                    (Scenario.world Scenario.unset Scenario.no_documents Scenario.no_pages)
                    "I love this product!" (func.content Scenario.scan) initial))).
    reflexivity.
  - apply (proj1 (proj2 (proj2 (proj2 (proj2
             (configuration_is_left_to_the_constructors
                (Scenario.world Scenario.empty_key Scenario.denied Scenario.no_pages)
                "I love this product!" [] initial)))))
             {| Azure.key := Some "" |}
             {| Azure.endpoint := Some "https://ai.example.net/";
                Azure.credential := {| Azure.key := Some "" |} |});
      reflexivity.
Defined.

(** ** Every run of the handler *)

Lemma process_text_shape (w : World) (text : string) (s : state) :
  (exists e, process_text w text s = (inl e, s))
  \/ (exists e, process_text w text s = (inl e, logged s [AnalyzeSentiment [text]]))
  \/ (exists documents,
        process_text w text s
        = (inr (TextResult documents), logged s [AnalyzeSentiment [text]])).
Proof.
  unfold process_text, bind, lift, remote, emit, bind, ret, raise.
  destruct (AzureKeyCredential w _) as [e|credential]; simpl; [left; eauto|].
  destruct (TextAnalyticsClient w _ credential) as [e|client]; simpl; [left; eauto|].
  right.
  destruct (analyze_sentiment w client [text]) as [e|response]; simpl; [left; eauto|].
  fold (TextResult []). rewrite for_each_append_document. simpl.
  destruct (render_all response) as [e|entries]; [left | right]; eauto.
Qed.

Lemma process_image_shape (w : World) (image : list byte) (s : state) :
  (exists e, process_image w image s = (inl e, s))
  \/ (exists e,
        process_image w image s
        = (inl e, logged s [BeginAnalyzeDocument "prebuilt-read" image]))
  \/ (exists e,
        process_image w image s
        = (inl e, logged s [BeginAnalyzeDocument "prebuilt-read" image; PollerResult]))
  \/ (exists pages,
        process_image w image s
        = (inr (ImageResult pages),
           logged s [BeginAnalyzeDocument "prebuilt-read" image; PollerResult])).
Proof.
  unfold process_image, bind, lift, remote, emit, bind, ret, raise.
  destruct (AzureKeyCredential w _) as [e|credential]; simpl; [left; eauto|].
  destruct (DocumentAnalysisClient w _ credential) as [e|client]; simpl; [left; eauto|].
  right.
  destruct (begin_analyze_document w client "prebuilt-read" image) as [e|poller]; simpl;
    [left; eauto|].
  right.
  destruct (Azure.result poller) as [e|result]; simpl.
  - left. exists e. unfold logged. simpl. now rewrite <- app_assoc.
  - right. fold (ImageResult []). rewrite for_each_append_page. simpl.
    exists (map render_page (Azure.pages result)).
    unfold logged. simpl. now rewrite <- app_assoc.
Qed.

Lemma logged_logged (s : state) (evs evs' : list event) :
  logged (logged s evs) evs' = logged s (evs ++ evs').
Proof. unfold logged. simpl. now rewrite app_assoc. Qed.

Lemma info_then (b : func.InputStream) (s : state) {A} (k : M A) :
  (logging_info (info_message b) ;; k) s = k (logged s [LogInfo (info_message b)]).
Proof. reflexivity. Qed.

Lemma main_shape (w : World) (b : func.InputStream) (s : state) :
  shape b s (main w b s).
Proof.
  destruct (Str.endswith (func.name b) ".txt") eqn:Et.
  - assert (R : route_of (func.name b) = ToText) by (unfold route_of; now rewrite Et).
    rewrite (main_txt w b s Et), info_then.
    unfold bind at 1. unfold func.read, decode_utf8 at 1.
    destruct (Utf8.utf8_wf (func.content b)) eqn:Ew; simpl.
    + assert (D : decode_utf8 (func.content b)
                  = inr (string_of_list_byte (func.content b)))
        by (unfold decode_utf8; now rewrite Ew).
      unfold bind at 1.
      destruct (process_text_shape w (string_of_list_byte (func.content b))
                  (logged s [LogInfo (info_message b)])) as [[e E]|[[e E]|[l E]]];
        rewrite E; simpl.
      * eapply shape_text_not_built; eassumption.
      * rewrite logged_logged. eapply shape_text_failed; eassumption.
      * unfold outputBlob_set. simpl. rewrite <- app_assoc.
        eapply shape_text_written; eassumption.
    + apply shape_undecodable; [exact R|]. unfold decode_utf8. now rewrite Ew.
  - destruct (Str.endswith (func.name b) ".jpg" || Str.endswith (func.name b) ".png") eqn:Ei.
    + assert (R : route_of (func.name b) = ToImage)
        by (unfold route_of; now rewrite Et, Ei).
      rewrite (main_image w b s Et Ei), info_then.
      unfold bind at 1. unfold func.read.
      destruct (process_image_shape w (func.content b)
                  (logged s [LogInfo (info_message b)]))
        as [[e E]|[[e E]|[[e E]|[l E]]]]; rewrite E; simpl.
      * now apply shape_image_not_built.
      * rewrite logged_logged. now apply shape_image_not_accepted.
      * rewrite logged_logged. now apply shape_image_failed.
      * unfold outputBlob_set. simpl. rewrite <- app_assoc.
        now apply shape_image_written.
    + assert (R : route_of (func.name b) = Skipped)
        by (unfold route_of; now rewrite Et, Ei).
      apply orb_false_iff in Ei as [Ej Ep].
      rewrite (main_unsupported w b s Et Ej Ep). now apply shape_skipped.
Qed.

Lemma process_text_built (w : World) (text : string) (s : state) credential client :
  AzureKeyCredential w (getenv w "AZURE_AI_KEY") = inr credential ->
  TextAnalyticsClient w (getenv w "AZURE_AI_ENDPOINT") credential = inr client ->
  process_text w text s
  = (match analyze_sentiment w client [text] with
     | inl e => inl e
     | inr response =>
         match render_all response with
         | inl e => inl e
         | inr entries => inr (TextResult entries)
         end
     end, logged s [AnalyzeSentiment [text]]).
Proof.
  intros Hc Ht. unfold process_text, bind, lift, remote, emit, bind, ret, raise.
  rewrite Hc, Ht. simpl.
  destruct (analyze_sentiment w client [text]) as [e|response]; simpl; [reflexivity|].
  fold (TextResult []). now rewrite for_each_append_document.
Qed.

Lemma process_text_frame (w : World) (text : string) :
  exists r evs, forall s, process_text w text s = (r, logged s evs).
Proof.
  destruct (AzureKeyCredential w (getenv w "AZURE_AI_KEY")) as [e|credential] eqn:Hc.
  { exists (inl e), []. intros s. rewrite logged_nil.
    unfold process_text, bind, lift, raise. now rewrite Hc. }
  destruct (TextAnalyticsClient w (getenv w "AZURE_AI_ENDPOINT") credential)
    as [e|client] eqn:Ht.
  { exists (inl e), []. intros s. rewrite logged_nil.
    unfold process_text, bind, lift, raise, ret. now rewrite Hc, Ht. }
  eexists. exists [AnalyzeSentiment [text]]. intros s.
  apply (process_text_built w text s credential client Hc Ht).
Qed.

Lemma process_image_frame (w : World) (image : list byte) :
  exists r evs, forall s, process_image w image s = (r, logged s evs).
Proof.
  destruct (AzureKeyCredential w (getenv w "AZURE_AI_KEY")) as [e|credential] eqn:Hc.
  { exists (inl e), []. intros s. rewrite logged_nil.
    unfold process_image, bind, lift, raise. now rewrite Hc. }
  destruct (DocumentAnalysisClient w (getenv w "AZURE_AI_ENDPOINT") credential)
    as [e|client] eqn:Hd.
  { exists (inl e), []. intros s. rewrite logged_nil.
    unfold process_image, bind, lift, raise, ret. now rewrite Hc, Hd. }
  destruct (begin_analyze_document w client "prebuilt-read" image) as [e|poller] eqn:Hb.
  { exists (inl e), [BeginAnalyzeDocument "prebuilt-read" image]. intros s.
    unfold process_image, bind, lift, remote, emit, bind, raise, ret.
    rewrite Hc, Hd. simpl. now rewrite Hb. }
  destruct (Azure.result poller) as [e|result] eqn:Hr.
  { exists (inl e), [BeginAnalyzeDocument "prebuilt-read" image; PollerResult]. intros s.
    unfold process_image, bind, lift, remote, emit, bind, raise, ret.
    rewrite Hc, Hd. simpl. rewrite Hb. simpl. rewrite Hr. simpl.
    unfold logged. simpl. now rewrite <- app_assoc. }
  eexists. eexists. intros s.
  apply (process_image_run w image s credential client poller result Hc Hd Hb Hr).
Qed.

Lemma remote_calls_app (t u : list event) :
  remote_calls (t ++ u) = remote_calls t ++ remote_calls u.
Proof. unfold remote_calls. apply filter_app. Qed.

Lemma has_suffix_route_text (name : string) :
  has_suffix ".txt" name -> Str.endswith name ".txt" = true.
Proof. apply endswith_spec. Qed.

(** ** Failures of the backends *)

(** X1. When the sentiment call itself raises, the handler fails with that
    exception after the info entry and the one call; nothing is retried
    and the output binding is not set. *)
Theorem sentiment_failure_fails_the_run (w : World) (b : func.InputStream) (s : state)
        text credential client e :
  has_suffix ".txt" (func.name b) ->
  decode_utf8 (func.content b) = inr text ->
  AzureKeyCredential w (getenv w "AZURE_AI_KEY") = inr credential ->
  TextAnalyticsClient w (getenv w "AZURE_AI_ENDPOINT") credential = inr client ->
  analyze_sentiment w client [text] = inl e ->
  main w b s
  = (inl e, logged s [LogInfo (info_message b); AnalyzeSentiment [text]]).
Proof.
  intros Hn Hd Hc Ht Ha. apply has_suffix_route_text in Hn.
  rewrite (main_txt w b s Hn), info_then.
  unfold bind at 1. unfold func.read. rewrite Hd. simpl.
  unfold bind at 1.
  rewrite (process_text_built w text _ credential client Hc Ht), Ha.
  now rewrite logged_logged.
Qed.

(** X2. The OCR route has two remote steps and either can fail the run.
    If the submission raises, the handler fails with that exception and
    the operation's result is never requested; if the wait for the result
    raises, the handler fails with that exception.  In both cases the
    output binding is left as it was. *)
Theorem ocr_failure_fails_the_run (w : World) (b : func.InputStream) (s : state)
        credential client :
  ~ has_suffix ".txt" (func.name b) ->
  has_suffix ".jpg" (func.name b) \/ has_suffix ".png" (func.name b) ->
  AzureKeyCredential w (getenv w "AZURE_AI_KEY") = inr credential ->
  DocumentAnalysisClient w (getenv w "AZURE_AI_ENDPOINT") credential = inr client ->
  (forall e,
     begin_analyze_document w client "prebuilt-read" (func.content b) = inl e ->
     main w b s
     = (inl e, logged s [LogInfo (info_message b);
                         BeginAnalyzeDocument "prebuilt-read" (func.content b)]))
  /\ (forall poller e,
        begin_analyze_document w client "prebuilt-read" (func.content b) = inr poller ->
        Azure.result poller = inl e ->
        main w b s
        = (inl e, logged s [LogInfo (info_message b);
                            BeginAnalyzeDocument "prebuilt-read" (func.content b);
                            PollerResult])).
Proof.
  intros Hn Hi Hc Hd.
  apply endswith_false in Hn.
  assert (Hi' : Str.endswith (func.name b) ".jpg" || Str.endswith (func.name b) ".png" = true).
  { apply orb_true_iff. destruct Hi as [Hi|Hi]; [left|right]; now apply endswith_spec. }
  split.
  - intros e Hb. rewrite (main_image w b s Hn Hi'), info_then.
    unfold bind at 1. unfold func.read.
    unfold process_image, bind, lift, remote, emit, bind, raise, ret.
    rewrite Hc, Hd. simpl. rewrite Hb. simpl.
    unfold logged. simpl. now rewrite <- app_assoc.
  - intros poller e Hb Hr. rewrite (main_image w b s Hn Hi'), info_then.
    unfold bind at 1. unfold func.read.
    unfold process_image, bind, lift, remote, emit, bind, raise, ret.
    rewrite Hc, Hd. simpl. rewrite Hb. simpl. rewrite Hr. simpl.
    unfold logged. simpl. now rewrite <- !app_assoc.
Qed.

(** ** What every run does *)

(** X3. The output binding is set exactly when the blob is routed to a
    strategy and the run succeeds, and what it then holds is the
    serialisation of the very value that strategy returned: the text
    strategy's on the decoded content, or the image strategy's on the raw
    content.  In every other run (skipped blob, or any failure) the binding
    is left as it was. *)
Theorem output_set_iff_strategy_succeeded (w : World) (b : func.InputStream) (s : state) :
  (exists envelope,
     fst (main w b s) = inr tt
     /\ outputBlob (snd (main w b s)) = Some (json.dumps envelope)
     /\ match route_of (func.name b) with
        | ToText =>
            exists text,
              decode_utf8 (func.content b) = inr text
              /\ fst (process_text w text (logged s [LogInfo (info_message b)]))
                 = inr envelope
        | ToImage =>
            fst (process_image w (func.content b) (logged s [LogInfo (info_message b)]))
            = inr envelope
        | Skipped => False
        end)
  \/ ((route_of (func.name b) = Skipped \/ failed (main w b s))
      /\ outputBlob (snd (main w b s)) = outputBlob s).
Proof.
  destruct (Str.endswith (func.name b) ".txt") eqn:Et.
  - assert (R : route_of (func.name b) = ToText) by (unfold route_of; now rewrite Et).
    rewrite R, (main_txt w b s Et), info_then.
    unfold bind, func.read.
    destruct (decode_utf8 (func.content b)) as [e|text] eqn:D; simpl.
    { right. split; [right; eexists; reflexivity | reflexivity]. }
    destruct (process_text_frame w text) as [r [evs F]]. rewrite !F.
    destruct r as [e|v]; simpl.
    + right. split; [right; eexists; reflexivity | reflexivity].
    + left. exists v. split; [reflexivity|]. split; [reflexivity|].
      exists text. split; [reflexivity|]. now rewrite F.
  - destruct (Str.endswith (func.name b) ".jpg" || Str.endswith (func.name b) ".png") eqn:Ei.
    + assert (R : route_of (func.name b) = ToImage)
        by (unfold route_of; now rewrite Et, Ei).
      rewrite R, (main_image w b s Et Ei), info_then.
      unfold bind, func.read.
      destruct (process_image_frame w (func.content b)) as [r [evs F]]. rewrite !F.
      destruct r as [e|v]; simpl.
      * right. split; [right; eexists; reflexivity | reflexivity].
      * left. exists v. split; [reflexivity|]. split; reflexivity.
    + assert (R : route_of (func.name b) = Skipped)
        by (unfold route_of; now rewrite Et, Ei).
      apply orb_false_iff in Ei as [Ej Ep].
      rewrite (main_unsupported w b s Et Ej Ep).
      right. split; [now left | reflexivity].
Qed.

(** X4. Every run appends to the log and starts with exactly one info
    entry, the one naming the blob and its size: earlier entries are kept,
    and nothing after it is an info entry. *)
Theorem one_info_entry_first (w : World) (b : func.InputStream) (s : state) :
  exists rest,
    trace (snd (main w b s)) = trace s ++ LogInfo (info_message b) :: rest
    /\ infos rest = 0%nat.
Proof.
  destruct (main_shape w b s); simpl; eexists; split; reflexivity.
Qed.

(** X5. The remote calls of a run are those of one strategy at most.  A
    skipped blob makes none; a ".txt" blob makes none or the single
    sentiment call on the one-element batch holding the decoded text; an
    image blob makes none, or the submission of its raw bytes to the
    "prebuilt-read" model, or that submission followed by one wait for the
    result.  No call is repeated. *)
Theorem remote_calls_of_a_run (w : World) (b : func.InputStream) (s : state) :
  exists calls,
    remote_calls (trace (snd (main w b s))) = remote_calls (trace s) ++ calls
    /\ match route_of (func.name b) with
       | Skipped => calls = []
       | ToText =>
           calls = []
           \/ exists text,
                decode_utf8 (func.content b) = inr text
                /\ calls = [AnalyzeSentiment [text]]
       | ToImage =>
           calls = []
           \/ calls = [BeginAnalyzeDocument "prebuilt-read" (func.content b)]
           \/ calls = [BeginAnalyzeDocument "prebuilt-read" (func.content b); PollerResult]
       end.
Proof.
  destruct (main_shape w b s) as [R|R D|text e R D|text e R D|text l R D|e R|e R|e R|l R];
    simpl; rewrite remote_calls_app, R; simpl;
    eexists; (split; [reflexivity|]); eauto.
Qed.

(** X6. A warning is logged by the skipped route and by no other: a blob
    that is routed to a strategy adds no warning, whether the strategy
    succeeds or fails. *)
Theorem warning_only_when_skipped (w : World) (b : func.InputStream) (s : state) :
  warnings (trace (snd (main w b s)))
  = (warnings (trace s)
     + match route_of (func.name b) with Skipped => 1 | _ => 0 end)%nat.
Proof.
  destruct (main_shape w b s) as [R|R D|text e R D|text e R D|text l R D|e R|e R|e R|l R];
    simpl; rewrite warnings_app, R; reflexivity.
Qed.

(** X7. What a run returns, what it writes and which remote calls it
    makes depend on the blob only through its route and its content: two
    blobs with the same bytes that take the same route (for instance a
    ".jpg" and a ".png", or the same file under two sizes or two names)
    are analysed alike.  Name and length reach only the log. *)
Theorem outcome_depends_on_route_and_content
        (w : World) (b b' : func.InputStream) (s : state) :
  route_of (func.name b) = route_of (func.name b') ->
  func.content b = func.content b' ->
  fst (main w b s) = fst (main w b' s)
  /\ outputBlob (snd (main w b s)) = outputBlob (snd (main w b' s))
  /\ remote_calls (trace (snd (main w b s))) = remote_calls (trace (snd (main w b' s))).
Proof.
  unfold route_of. intros R C.
  destruct (Str.endswith (func.name b) ".txt") eqn:Et;
    destruct (Str.endswith (func.name b') ".txt") eqn:Et'.
  - rewrite (main_txt w b s Et), (main_txt w b' s Et'), !info_then.
    unfold bind, func.read. rewrite C.
    destruct (decode_utf8 (func.content b')) as [e|text]; simpl.
    { rewrite !remote_calls_app. simpl. repeat split; reflexivity. }
    destruct (process_text_frame w text) as [r [evs F]]. rewrite !F.
    destruct r as [e|v]; simpl; rewrite !remote_calls_app; simpl;
      repeat split; reflexivity.
  - destruct (Str.endswith (func.name b') ".jpg" || Str.endswith (func.name b') ".png");
      discriminate.
  - destruct (Str.endswith (func.name b) ".jpg" || Str.endswith (func.name b) ".png");
      discriminate.
  - destruct (Str.endswith (func.name b) ".jpg" || Str.endswith (func.name b) ".png") eqn:Ei;
      destruct (Str.endswith (func.name b') ".jpg" || Str.endswith (func.name b') ".png")
        eqn:Ei'; try discriminate.
    + rewrite (main_image w b s Et Ei), (main_image w b' s Et' Ei'), !info_then.
      unfold bind, func.read. rewrite C.
      destruct (process_image_frame w (func.content b')) as [r [evs F]]. rewrite !F.
      destruct r as [e|v]; simpl; rewrite !remote_calls_app; simpl;
        repeat split; reflexivity.
    + apply orb_false_iff in Ei as [Ej Ep]. apply orb_false_iff in Ei' as [Ej' Ep'].
      rewrite (main_unsupported w b s Et Ej Ep), (main_unsupported w b' s Et' Ej' Ep').
      simpl. rewrite !remote_calls_app. simpl. repeat split; reflexivity.
Qed.

(** ** Names at the edges *)

Lemma len_append (p q : string) :
  Str.len (p ++ q)%string = (Str.len p + Str.len q)%nat.
Proof. induction p as [|a p IH]; simpl; [reflexivity | rewrite IH; lia]. Qed.

(** X8. A name of fewer than four characters cannot end in any of the
    three suffixes, each of which is four characters long: such a blob is
    always skipped, with the warning and without output, whatever it
    holds.  Characters are counted as Python's [len] counts them, not as
    bytes of the encoding. *)
Theorem short_names_are_skipped (w : World) (b : func.InputStream) (s : state) :
  (Str.len (func.name b) < 4)%nat ->
  main w b s
  = (inr tt, logged s [LogInfo (info_message b); LogWarning (warning_message b)]).
Proof.
  intros H.
  assert (E : forall suffix, Str.len suffix = 4%nat ->
                             Str.endswith (func.name b) suffix = false).
  { intros suffix L.
    destruct (Str.endswith (func.name b) suffix) eqn:Es; [|reflexivity].
    apply endswith_spec in Es as [p Ep].
    rewrite Ep, len_append, L in H. lia. }
  apply main_unsupported; apply E; reflexivity.
Qed.

Lemma drop_plus (p n : string) (k : nat) :
  Str.drop (String.length p + k) (p ++ n)%string = Str.drop k n.
Proof. induction p as [|a p IH]; simpl; [reflexivity | exact IH]. Qed.

Lemma endswith_after_prefix (p n suffix : string) :
  (String.length suffix <= String.length n)%nat ->
  Str.endswith (p ++ n)%string suffix = Str.endswith n suffix.
Proof.
  intros H. unfold Str.endswith. rewrite length_append.
  replace (String.length p + String.length n - String.length suffix)%nat
    with (String.length p + (String.length n - String.length suffix))%nat by lia.
  rewrite drop_plus.
  replace (String.length suffix <=? String.length p + String.length n)%nat with true
    by (symmetry; apply Nat.leb_le; lia).
  replace (String.length suffix <=? String.length n)%nat with true
    by (symmetry; apply Nat.leb_le; lia).
  reflexivity.
Qed.

(** X9. The route is decided by the last four characters of the name
    alone: putting any path in front of a file name of at least four
    characters does not change the route. *)
Theorem route_ignores_leading_path (p n : string) :
  (4 <= String.length n)%nat ->
  route_of (p ++ n)%string = route_of n.
Proof.
  intros H. unfold route_of.
  now rewrite !endswith_after_prefix by exact H.
Qed.

(** ** More of the text route *)

(** X10. An empty ".txt" blob is not special-cased: it decodes to the
    empty string and, once the client is built, the sentiment call is
    issued on the one-element batch holding that empty string. *)
Theorem empty_text_is_submitted (w : World) (b : func.InputStream) (s : state)
        credential client :
  has_suffix ".txt" (func.name b) ->
  func.content b = [] ->
  AzureKeyCredential w (getenv w "AZURE_AI_KEY") = inr credential ->
  TextAnalyticsClient w (getenv w "AZURE_AI_ENDPOINT") credential = inr client ->
  trace (snd (main w b s))
  = trace s ++ [LogInfo (info_message b); AnalyzeSentiment [""]].
Proof.
  intros Hn Hb Hc Ht. apply has_suffix_route_text in Hn.
  rewrite (main_txt w b s Hn), info_then.
  unfold bind at 1. unfold func.read. rewrite Hb. simpl.
  unfold bind at 1.
  rewrite (process_text_built w "" _ credential client Hc Ht).
  destruct (analyze_sentiment w client [""]) as [e|response]; simpl.
  { now rewrite <- app_assoc. }
  destruct (render_all response) as [e|entries]; simpl; now rewrite <- app_assoc.
Qed.

(** X11. The handler does not check that the backend answered with one
    result: whatever the number of returned items, if each exposes its
    sentiment and scores the run succeeds and the written [documents]
    array has one entry per returned item, in the backend's order. *)
Theorem documents_count_follows_backend (w : World) (b : func.InputStream) (s : state)
        text credential client response :
  has_suffix ".txt" (func.name b) ->
  decode_utf8 (func.content b) = inr text ->
  AzureKeyCredential w (getenv w "AZURE_AI_KEY") = inr credential ->
  TextAnalyticsClient w (getenv w "AZURE_AI_ENDPOINT") credential = inr client ->
  analyze_sentiment w client [text] = inr response ->
  (forall doc, In doc response ->
     Azure.sentiment doc <> None /\ Azure.confidence_scores doc <> None) ->
  exists entries,
    main w b s
    = (inr tt,
       written s [LogInfo (info_message b); AnalyzeSentiment [text]] (TextResult entries))
    /\ List.length entries = List.length response
    /\ Forall2 (fun doc entry => rendered doc = Some entry) response entries.
Proof.
  intros Hn Hd Hc Ht Ha Hall. apply has_suffix_route_text in Hn.
  destruct (render_all_rendered response) as [entries [E F]].
  { intros doc Hin Hr. apply rendered_none in Hr.
    destruct (Hall doc Hin) as [Hs Hcs]. tauto. }
  exists entries. split; [|split; [symmetry; exact (Forall2_length F) | exact F]].
  rewrite (main_txt w b s Hn), info_then.
  unfold bind at 1. unfold func.read. rewrite Hd. simpl.
  unfold bind at 1.
  rewrite (process_text_built w text _ credential client Hc Ht), Ha, E.
  unfold outputBlob_set, written, logged. simpl. now rewrite <- app_assoc.
Qed.

(** ** The further theorems at work on concrete blobs *)

Lemma sentiment_failure_fails_the_run_witness :
  main (Scenario.world Scenario.configured (inl Scenario.unavailable) Scenario.no_pages)
       Scenario.notes initial
  = (inl Scenario.unavailable,
     logged initial [LogInfo (info_message Scenario.notes);
                     AnalyzeSentiment ["I love this product!"]]).
Proof.
  apply (sentiment_failure_fails_the_run
           (Scenario.world Scenario.configured (inl Scenario.unavailable) Scenario.no_pages)
           Scenario.notes initial "I love this product!"
           Scenario.key_of Scenario.client_of Scenario.unavailable).
  - exists "notes". reflexivity.
  - vm_compute. reflexivity.
  - reflexivity.
  - reflexivity.
  - reflexivity.
Defined.

Lemma ocr_failure_fails_the_run_witness :
  main Scenario.refusing_world Scenario.scan initial
  = (inl Scenario.unreadable,
     logged initial [LogInfo (info_message Scenario.scan);
                     BeginAnalyzeDocument "prebuilt-read" (func.content Scenario.scan)])
  /\ main (Scenario.world Scenario.configured Scenario.no_documents
                          (inl Scenario.unavailable))
          Scenario.scan initial
     = (inl Scenario.unavailable,
        logged initial [LogInfo (info_message Scenario.scan);
                        BeginAnalyzeDocument "prebuilt-read" (func.content Scenario.scan);
                        PollerResult]).
Proof.
  split.
  - apply (proj1 (ocr_failure_fails_the_run
                    Scenario.refusing_world Scenario.scan initial
                    Scenario.key_of Scenario.client_of
                    ltac:(apply endswith_false; reflexivity)
                    ltac:(right; exists "scan"; reflexivity)
                    eq_refl eq_refl)).
    reflexivity.
  - apply (proj2 (ocr_failure_fails_the_run
                    (Scenario.world Scenario.configured Scenario.no_documents
                                    (inl Scenario.unavailable))
                    Scenario.scan initial
                    Scenario.key_of Scenario.client_of
                    ltac:(apply endswith_false; reflexivity)
                    ltac:(right; exists "scan"; reflexivity)
                    eq_refl eq_refl)
                 {| Azure.result := inl Scenario.unavailable |}).
    + reflexivity.
    + reflexivity.
Defined.

Lemma outcome_depends_on_route_and_content_witness :
  fst (main (Scenario.world Scenario.configured Scenario.no_documents (inr Scenario.invoice))
            Scenario.scan initial)
  = fst (main (Scenario.world Scenario.configured Scenario.no_documents
                              (inr Scenario.invoice))
              Scenario.picture initial)
  /\ outputBlob
       (snd (main (Scenario.world Scenario.configured Scenario.no_documents
                                  (inr Scenario.invoice))
                  Scenario.scan initial))
     = outputBlob
         (snd (main (Scenario.world Scenario.configured Scenario.no_documents
                                    (inr Scenario.invoice))
                    Scenario.picture initial))
  /\ remote_calls
       (trace (snd (main (Scenario.world Scenario.configured Scenario.no_documents
                                         (inr Scenario.invoice))
                         Scenario.scan initial)))
     = remote_calls
         (trace (snd (main (Scenario.world Scenario.configured Scenario.no_documents
                                           (inr Scenario.invoice))
                           Scenario.picture initial))).
Proof.
  apply (outcome_depends_on_route_and_content
           (Scenario.world Scenario.configured Scenario.no_documents (inr Scenario.invoice))
           Scenario.scan Scenario.picture initial).
  - reflexivity.
  - reflexivity.
Defined.

Lemma short_names_are_skipped_witness :
  main (Scenario.world Scenario.configured Scenario.no_documents (inr Scenario.invoice))
       Scenario.tiny initial
  = (inr tt,
     logged initial [LogInfo (info_message Scenario.tiny);
                     LogWarning (warning_message Scenario.tiny)])
  /\ main (Scenario.world Scenario.configured Scenario.no_documents (inr Scenario.invoice))
          Scenario.accented initial
     = (inr tt,
        logged initial [LogInfo (info_message Scenario.accented);
                        LogWarning (warning_message Scenario.accented)]).
Proof.
  split.
  - apply (short_names_are_skipped
             (Scenario.world Scenario.configured Scenario.no_documents
                             (inr Scenario.invoice))
             Scenario.tiny initial).
    vm_compute. lia.
  - apply (short_names_are_skipped
             (Scenario.world Scenario.configured Scenario.no_documents
                             (inr Scenario.invoice))
             Scenario.accented initial).
    vm_compute. lia.
Defined.

Lemma route_ignores_leading_path_witness :
  route_of ("samples-workitems/2024/" ++ "notes.txt")%string = route_of "notes.txt".
Proof.
  apply (route_ignores_leading_path "samples-workitems/2024/" "notes.txt").
  simpl. lia.
Defined.

Lemma empty_text_is_submitted_witness :
  trace (snd (main (Scenario.world Scenario.configured Scenario.no_documents
                                   Scenario.no_pages)
                   Scenario.empty_note initial))
  = trace initial ++ [LogInfo (info_message Scenario.empty_note); AnalyzeSentiment [""]].
Proof.
  apply (empty_text_is_submitted
           (Scenario.world Scenario.configured Scenario.no_documents Scenario.no_pages)
           Scenario.empty_note initial Scenario.key_of Scenario.client_of).
  - exists "empty". reflexivity.
  - reflexivity.
  - reflexivity.
  - reflexivity.
Defined.

Lemma documents_count_follows_backend_witness :
  exists entries,
    main (Scenario.world Scenario.configured
                         (inr [Scenario.loved; Scenario.disliked]) Scenario.no_pages)
         Scenario.notes initial
    = (inr tt,
       written initial [LogInfo (info_message Scenario.notes);
                        AnalyzeSentiment ["I love this product!"]]
               (TextResult entries))
    /\ List.length entries = List.length [Scenario.loved; Scenario.disliked]
    /\ Forall2 (fun doc entry => rendered doc = Some entry)
               [Scenario.loved; Scenario.disliked] entries.
Proof.
  apply (documents_count_follows_backend
           (Scenario.world Scenario.configured
                           (inr [Scenario.loved; Scenario.disliked]) Scenario.no_pages)
           Scenario.notes initial "I love this product!"
           Scenario.key_of Scenario.client_of [Scenario.loved; Scenario.disliked]).
  - exists "notes". reflexivity.
  - vm_compute. reflexivity.
  - reflexivity.
  - reflexivity.
  - reflexivity.
  - intros doc [<-|[<-|[]]]; split; discriminate.
Defined.
